(** * DemoAgent (demo/agent.py): a shallow embedding and its properties

    The Python class [DemoAgent] launches an agent process, probes it for
    readiness, relays admin HTTP calls to it and receives its webhooks.

    Coroutines and methods become computations in a state-and-exception
    monad [M].  The state holds the attributes of [self] and the outside
    world: what the HTTP client answers to each request, how the spawned
    process behaves, and the trace of observable actions performed so far.
    Python strings are modelled as [string] (one character per element),
    Python [int] as [Z], Python [float] as the IEEE specification floats of
    the standard library, and durations in seconds as rationals. *)

From Stdlib Require Import ZArith QArith String Ascii List Bool Lia.
From Stdlib Require Import DecimalString DecimalPos DecimalZ Floats.SpecFloat.
From Stdlib Require Import Sorting.Sorted Sorting.Permutation.
Import ListNotations.

#[local] Set Warnings "-register-all".
Local Open Scope string_scope.
Local Open Scope Z_scope.

(** ** Python strings *)

Module PyStr.

(** [str(n)] for an [int]. *)
Definition of_int (n : Z) : string := NilZero.string_of_int (Z.to_int n).

(** [c * n] for a one-character string [c]. *)
Fixpoint replicate (n : nat) (c : ascii) : string :=
  match n with
  | O => EmptyString
  | S k => String c (replicate k c)
  end.

Definition spaces (n : nat) : string := replicate n " "%char.

(** [s.ljust(w)], the layout of the format specs [{:w}] and [{:ws}] on
    strings: the width is a minimum, never a truncation. *)
Definition ljust (w : nat) (s : string) : string :=
  s ++ spaces (w - String.length s).

(** [s.rjust(w)], the layout of [{:>w}] and of numeric format specs. *)
Definition rjust (w : nat) (s : string) : string :=
  spaces (w - String.length s) ++ s.

(** [s[:n]] *)
Definition take (n : nat) (s : string) : string := substring 0 n s.

(** [s[-n:]] for [n > 0] *)
Definition last (n : nat) (s : string) : string :=
  substring (String.length s - n) n s.

(** [needle in hay] *)
Fixpoint contains (needle hay : string) : bool :=
  prefix needle hay ||
  match hay with
  | EmptyString => false
  | String _ rest => contains needle rest
  end.

Definition lower_char (c : ascii) : ascii :=
  let n := nat_of_ascii c in
  if ((65 <=? n) && (n <=? 90))%nat then ascii_of_nat (n + 32) else c.

(** [s.lower()] on the ASCII range *)
Fixpoint lower (s : string) : string :=
  match s with
  | EmptyString => EmptyString
  | String c rest => String (lower_char c) (lower rest)
  end.

(** [s.replace(' ', '')] *)
Fixpoint remove_spaces (s : string) : string :=
  match s with
  | EmptyString => EmptyString
  | String c rest =>
      if Ascii.eqb c " "%char then remove_spaces rest
      else String c (remove_spaces rest)
  end.

(** Truthiness of a string: [bool(s)]. *)
Definition truthy (s : string) : bool :=
  match s with EmptyString => false | _ => true end.

End PyStr.

(** ** Python dictionaries

    Insertion-ordered; [items()] is the list itself, a lookup returns the
    value bound to the key. *)

Definition dict (V : Type) : Type := list (string * V).

Fixpoint dict_get {V} (d : dict V) (k : string) : option V :=
  match d with
  | [] => None
  | (k', v) :: rest => if String.eqb k' k then Some v else dict_get rest k
  end.

(** [d[k] = v]: an existing key keeps its position. *)
Fixpoint dict_set {V} (d : dict V) (k : string) (v : V) : dict V :=
  match d with
  | [] => [(k, v)]
  | (k', v') :: rest =>
      if String.eqb k' k then (k, v) :: rest else (k', v') :: dict_set rest k v
  end.

(** ** Python values that travel as JSON *)

Inductive json : Type :=
| JNull                              (* None *)
| JBool (b : bool)
| JInt (n : Z)
| JFloat (f : spec_float)
| JStr (s : string)
| JList (items : list json)
| JDict (members : list (string * json)).

(** [json.loads] of the Python library, answering [None] where Python
    raises [JSONDecodeError]; the empty document is never valid. *)
Class JsonDecoder : Type := {
  json_loads : string -> option json;
  json_loads_empty : json_loads "" = None
}.

(** ** Exceptions *)

Inductive exn : Type :=
| Exception (msg : string)           (* raise Exception(msg) *)
| ClientError (msg : string)         (* aiohttp.ClientError and its subclasses *)
| JSONDecodeError (doc : string)
| KeyError (key : string)
| TypeError (msg : string)
| OtherError (cls msg : string).     (* any other exception class *)

Definition is_ClientError (e : exn) : bool :=
  match e with ClientError _ => true | _ => false end.

Inductive outcome (A : Type) : Type :=
| Ok (a : A)
| Raise (e : exn).
Arguments Ok {A} a.
Arguments Raise {A} e.

Definition raised {A} (o : outcome A) : bool :=
  match o with Raise _ => true | Ok _ => false end.

(** ** The outside world *)

Record request : Type := {
  rq_method : string;
  rq_url : string;
  rq_json : option json
}.

(** What the client session does with a request: it raises, or hands over
    a response whose status and text the caller reads. *)
Inductive http_outcome : Type :=
| Fails (e : exn)
| Responds (status : Z) (text : string).

(** A [subprocess.Popen] handle.  [returncode] is what [poll()] reports
    ([None] while running); [exits_within t] tells whether, once signalled,
    the process is gone within [t] seconds, and with which code. *)
Record Popen : Type := {
  popen_args : list string;
  returncode : option Z;
  exits_within : Q -> option Z
}.

(** Arguments of [log_msg]. *)
Record log_record : Type := {
  log_output : list json;
  log_color : option string;
  log_prefix : option string;
  log_end : string
}.

Inductive event : Type :=
| EvSleep (seconds : Q)                       (* asyncio.sleep *)
| EvRequest (r : request)                     (* client_session.request / get / post *)
| EvLog (l : log_record)                      (* log_msg *)
| EvLogJson (data : json) (label prefix : option string)   (* utils.log_json *)
| EvSpawn (args : list string) (env : dict string)
| EvSigterm                                   (* proc.terminate() *)
| EvWait (timeout : Q)                        (* proc.wait(timeout=...) *)
| EvSessionClose
| EvSiteStart (host : string) (port : Z)
| EvSiteStop (port : Z)
| EvHandler (attr : string) (payload : json). (* a handle_* method is called *)

Record World : Type := {
  (** answer of the client session to its n-th request *)
  http_client : nat -> request -> http_outcome;
  requests_made : nat;
  (** what [subprocess.Popen] returns for a command line *)
  popen : list string -> dict string -> outcome Popen;
  (** whether a TCP site can be started on a port *)
  site_start : Z -> option exn;
  (** observable actions, oldest first *)
  trace : list event
}.

(** ** The attributes of [self] *)

Record TCPSite : Type := {
  site_host : string;
  site_port : Z
}.

Record DemoAgent : Type := {
  ident : string;
  http_port : Z;
  admin_port : Z;
  internal_host : string;
  external_host : string;
  genesis_data : option string;
  label : string;
  color : option string;
  prefix : option string;
  timing : bool;
  postgres : bool;
  extra_args : option (list (list string));
  endpoint : string;
  admin_url : string;
  webhook_port : option Z;
  webhook_url : option string;
  webhook_site : option TCPSite;
  params : dict string;
  proc : option Popen;
  seed : string;
  storage_type : option string;
  wallet_type : string;
  wallet_name : string;
  wallet_key : string;
  did : json
}.

(** Assignments to attributes made after construction. *)

Definition set_did (v : json) (a : DemoAgent) : DemoAgent :=
  {| ident := ident a; http_port := http_port a; admin_port := admin_port a;
     internal_host := internal_host a; external_host := external_host a;
     genesis_data := genesis_data a; label := label a; color := color a;
     prefix := prefix a; timing := timing a; postgres := postgres a;
     extra_args := extra_args a; endpoint := endpoint a;
     admin_url := admin_url a; webhook_port := webhook_port a;
     webhook_url := webhook_url a; webhook_site := webhook_site a;
     params := params a; proc := proc a; seed := seed a;
     storage_type := storage_type a; wallet_type := wallet_type a;
     wallet_name := wallet_name a; wallet_key := wallet_key a; did := v |}.

Definition set_proc (v : option Popen) (a : DemoAgent) : DemoAgent :=
  {| ident := ident a; http_port := http_port a; admin_port := admin_port a;
     internal_host := internal_host a; external_host := external_host a;
     genesis_data := genesis_data a; label := label a; color := color a;
     prefix := prefix a; timing := timing a; postgres := postgres a;
     extra_args := extra_args a; endpoint := endpoint a;
     admin_url := admin_url a; webhook_port := webhook_port a;
     webhook_url := webhook_url a; webhook_site := webhook_site a;
     params := params a; proc := v; seed := seed a;
     storage_type := storage_type a; wallet_type := wallet_type a;
     wallet_name := wallet_name a; wallet_key := wallet_key a; did := did a |}.

Definition set_webhook_port (v : option Z) (a : DemoAgent) : DemoAgent :=
  {| ident := ident a; http_port := http_port a; admin_port := admin_port a;
     internal_host := internal_host a; external_host := external_host a;
     genesis_data := genesis_data a; label := label a; color := color a;
     prefix := prefix a; timing := timing a; postgres := postgres a;
     extra_args := extra_args a; endpoint := endpoint a;
     admin_url := admin_url a; webhook_port := v;
     webhook_url := webhook_url a; webhook_site := webhook_site a;
     params := params a; proc := proc a; seed := seed a;
     storage_type := storage_type a; wallet_type := wallet_type a;
     wallet_name := wallet_name a; wallet_key := wallet_key a; did := did a |}.

Definition set_webhook_url (v : option string) (a : DemoAgent) : DemoAgent :=
  {| ident := ident a; http_port := http_port a; admin_port := admin_port a;
     internal_host := internal_host a; external_host := external_host a;
     genesis_data := genesis_data a; label := label a; color := color a;
     prefix := prefix a; timing := timing a; postgres := postgres a;
     extra_args := extra_args a; endpoint := endpoint a;
     admin_url := admin_url a; webhook_port := webhook_port a;
     webhook_url := v; webhook_site := webhook_site a;
     params := params a; proc := proc a; seed := seed a;
     storage_type := storage_type a; wallet_type := wallet_type a;
     wallet_name := wallet_name a; wallet_key := wallet_key a; did := did a |}.

Definition set_webhook_site (v : option TCPSite) (a : DemoAgent) : DemoAgent :=
  {| ident := ident a; http_port := http_port a; admin_port := admin_port a;
     internal_host := internal_host a; external_host := external_host a;
     genesis_data := genesis_data a; label := label a; color := color a;
     prefix := prefix a; timing := timing a; postgres := postgres a;
     extra_args := extra_args a; endpoint := endpoint a;
     admin_url := admin_url a; webhook_port := webhook_port a;
     webhook_url := webhook_url a; webhook_site := v;
     params := params a; proc := proc a; seed := seed a;
     storage_type := storage_type a; wallet_type := wallet_type a;
     wallet_name := wallet_name a; wallet_key := wallet_key a; did := did a |}.

(** ** The monad of methods and coroutines *)

Record State : Type := {
  self : DemoAgent;
  world : World
}.

Definition M (A : Type) : Type := State -> outcome A * State.

Definition ret {A} (a : A) : M A := fun s => (Ok a, s).

Definition bind {A B} (m : M A) (k : A -> M B) : M B :=
  fun s =>
    match m s with
    | (Ok a, s') => k a s'
    | (Raise e, s') => (Raise e, s')
    end.

Definition raise {A} (e : exn) : M A := fun s => (Raise e, s).

(** [try: body / except <class>: handler], for the classes [catches] accepts. *)
Definition try_except {A} (body : M A) (catches : exn -> bool)
  (handler : exn -> M A) : M A :=
  fun s =>
    match body s with
    | (Raise e, s') => if catches e then handler e s' else (Raise e, s')
    | r => r
    end.

Declare Scope monad_scope.
Delimit Scope monad_scope with monad.
Notation "x <- m ;; k" := (bind m (fun x => k))
  (at level 61, m at next level, right associativity) : monad_scope.
Notation "m ;; k" := (bind m (fun _ => k))
  (at level 61, right associativity) : monad_scope.
Local Open Scope monad_scope.

Definition get_self : M DemoAgent := fun s => (Ok (self s), s).

Definition modify_self (f : DemoAgent -> DemoAgent) : M unit :=
  fun s => (Ok tt, {| self := f (self s); world := world s |}).

Definition get_world : M World := fun s => (Ok (world s), s).

Definition record (ev : event) (w : World) : World :=
  {| http_client := http_client w; requests_made := requests_made w;
     popen := popen w; site_start := site_start w;
     trace := (trace w ++ [ev])%list |}.

Definition count_request (w : World) : World :=
  {| http_client := http_client w; requests_made := S (requests_made w);
     popen := popen w; site_start := site_start w; trace := trace w |}.

Definition emit (ev : event) : M unit :=
  fun s => (Ok tt, {| self := self s; world := record ev (world s) |}).

(** [await asyncio.sleep(t)] *)
Definition sleep (t : Q) : M unit := emit (EvSleep t).

(** [async with self.client_session.request(...) as resp]: the status and
    the text of the response, or the exception of the client. *)
Definition client_request (r : request) : M (Z * string) :=
  fun s =>
    let w := world s in
    let s' := {| self := self s; world := count_request (record (EvRequest r) w) |} in
    match http_client w (requests_made w) r with
    | Fails e => (Raise e, s')
    | Responds status text => (Ok (status, text), s')
    end.

(** ** Format specs and sorting used by the timing report *)

Module PyFormat.

(** The format spec [{:wd}]: decimal digits, right-aligned in at least [w]
    columns. *)
Definition fmt_d (w : nat) (n : Z) : string := PyStr.rjust w (PyStr.of_int n).

(** The value [m * 2^e * 1000] rounded to the nearest integer, ties to the
    even one: the number of thousandths that [.3f] prints. *)
Definition thousandths (m : positive) (e : Z) : Z :=
  let n := Zpos m * 1000 in
  if 0 <=? e then n * 2 ^ e
  else
    let d := 2 ^ (- e) in
    let q := n / d in
    let r := n mod d in
    if 2 * r <? d then q
    else if d <? 2 * r then q + 1
    else if Z.even q then q else q + 1.

Definition sign (s : bool) : string := if s then "-" else "".

(** Three digits after the point. *)
Definition frac3 (t : Z) : string :=
  let k := t mod 1000 in
  (if k <? 10 then "00" else if k <? 100 then "0" else "") ++ PyStr.of_int k.

(** The format spec [{:.3f}] on a [float]. *)
Definition fixed3 (x : spec_float) : string :=
  match x with
  | S754_nan => "nan"
  | S754_infinity s => sign s ++ "inf"
  | S754_zero s => sign s ++ "0.000"
  | S754_finite s m e =>
      let t := thousandths m e in
      sign s ++ PyStr.of_int (t / 1000) ++ "." ++ frac3 t
  end.

(** The format spec [{:w.3f}] *)
Definition fmt_f3 (w : nat) (x : spec_float) : string :=
  PyStr.rjust w (fixed3 x).

End PyFormat.

Section ListSort.

Context {A K : Type}.
Variable key : A -> K.
Variable lt : K -> K -> bool.

(** [x] goes in front of the first element whose key is greater than its
    own, hence behind every element with an equal key. *)
Fixpoint insert_sorted (x : A) (l : list A) : list A :=
  match l with
  | [] => [x]
  | y :: rest =>
      if lt (key x) (key y) then x :: y :: rest
      else y :: insert_sorted x rest
  end.

(** [l.sort(key=key)]: ascending, stable, comparing keys with [<] only.
    On keys that [<] orders totally every such sort returns the same list,
    and insertion sort stands for Python's.  On other keys, such as a
    [float] NaN, the list Python returns depends on how it merges runs,
    which is not modelled. *)
Definition list_sort (l : list A) : list A :=
  fold_left (fun acc x => insert_sorted x acc) l [].

(** [l.sort(key=key, reverse=True)]: the list is reversed, sorted, and
    reversed again, so equal keys keep their original order. *)
Definition list_sort_reverse (l : list A) : list A :=
  rev (list_sort (rev l)).

(** [a] may stand before [b] in ascending, resp. descending, order. *)
Definition ascending (a b : A) : Prop := lt (key b) (key a) = false.
Definition descending (a b : A) : Prop := lt (key a) (key b) = false.

(** The key of [x] is neither below nor above [k]. *)
Definition level (k : K) (x : A) : bool :=
  negb (lt (key x) k) && negb (lt k (key x)).

End ListSort.

(** Every key of the list is among the [ordered] ones. *)
Definition all_ordered {A K} (key : A -> K) (ordered : K -> Prop) (l : list A) : Prop :=
  Forall (fun a => ordered (key a)) l.

(** ** The timing report *)

Record timing_report : Type := {
  t_count : dict Z;
  t_total : dict spec_float;
  t_avg : dict spec_float;
  t_min : dict spec_float;
  t_max : dict spec_float
}.

(** One tuple of [result]. *)
Record timing_row : Type := {
  row_name : string;
  row_count : Z;
  row_total : spec_float;
  row_avg : spec_float;
  row_min : spec_float;
  row_max : spec_float
}.

(** [d[name]] *)
Definition subscript {V} (d : dict V) (name : string) : outcome V :=
  match dict_get d name with
  | Some v => Ok v
  | None => Raise (KeyError name)
  end.

(** The loop over the items of the count dictionary. *)
Fixpoint collect_rows (t : timing_report) (items : list (string * Z))
  : outcome (list timing_row) :=
  match items with
  | [] => Ok []
  | (name, count) :: rest =>
      match subscript (t_total t) name with
      | Raise e => Raise e
      | Ok total =>
      match subscript (t_avg t) name with
      | Raise e => Raise e
      | Ok avg =>
      match subscript (t_min t) name with
      | Raise e => Raise e
      | Ok mn =>
      match subscript (t_max t) name with
      | Raise e => Raise e
      | Ok mx =>
      match collect_rows t rest with
      | Raise e => Raise e
      | Ok rows =>
          Ok ({| row_name := PyStr.take 35 name; row_count := count;
                 row_total := total; row_avg := avg;
                 row_min := mn; row_max := mx |} :: rows)
      end end end end end
  end.

(** The header line: the format [{:35} | {:>12} {:>12} {:>10} {:>10} {:>10}]
    applied to the empty name and the five column titles. *)
Definition timing_header : string :=
  PyStr.ljust 35 "" ++ " | " ++ PyStr.rjust 12 "count" ++ " " ++
  PyStr.rjust 12 "total" ++ " " ++ PyStr.rjust 10 "avg" ++ " " ++
  PyStr.rjust 10 "min" ++ " " ++ PyStr.rjust 10 "max".

(** A data line: the format
    [{:35} | {:12d} {:12.3f} {:10.3f} {:10.3f} {:10.3f}] applied to a row. *)
Definition format_row (r : timing_row) : string :=
  PyStr.ljust 35 (row_name r) ++ " | " ++ PyFormat.fmt_d 12 (row_count r) ++ " " ++
  PyFormat.fmt_f3 12 (row_total r) ++ " " ++ PyFormat.fmt_f3 10 (row_avg r) ++ " " ++
  PyFormat.fmt_f3 10 (row_min r) ++ " " ++ PyFormat.fmt_f3 10 (row_max r).

(** [result] once sorted. *)
Definition sorted_rows (t : timing_report) : outcome (list timing_row) :=
  match collect_rows t (t_count t) with
  | Raise e => Raise e
  | Ok result => Ok (list_sort_reverse row_total SFltb result)
  end.

(** [DemoAgent.format_timing]: the lines the generator yields, or the
    exception raised before the first of them.  [self] plays no part. *)
Definition format_timing (t : timing_report) : outcome (list string) :=
  match sorted_rows t with
  | Raise e => Raise e
  | Ok result =>
      Ok (timing_header :: PyStr.replicate 96 "="%char ::
          map format_row result ++ [""])%list
  end.

(** ** The class *)

(** A response of the webhook server. *)
Record web_response : Type := {
  resp_status : Z;
  resp_text : string
}.

(** What [getattr(self, name, None)] finds under a [handle_*] name. *)
Inductive attribute : Type :=
| SubclassMethod (body : json -> M unit)   (* a coroutine of a subclass *)
| Own_handle_output
| Own_handle_webhook.

Section DemoAgentClass.

Context {decoder : JsonDecoder}.

(** [json.dumps] *)
Variable json_dumps : json -> string.

(** [os.environ] *)
Variable environ : dict string.

(** The [handle_*] coroutines a subclass defines, by attribute name. *)
Variable handlers : string -> option (json -> M unit).

(** [str(v)] on decoded values, for log messages. *)
Variable py_str : json -> string.

(** [o or default] on an optional string *)
Definition or_default (o : option string) (default : string) : string :=
  match o with
  | Some s => if PyStr.truthy s then s else default
  | None => default
  end.

Definition is_set (o : option string) : bool :=
  match o with Some s => PyStr.truthy s | None => false end.

(** Module constants *)

Definition DEFAULT_POSTGRES : bool := is_set (dict_get environ "POSTGRES").

Definition RUN_MODE : option string := dict_get environ "RUNMODE".

Definition docker : bool :=
  match RUN_MODE with Some m => String.eqb m "docker" | None => false end.

Definition DEFAULT_INTERNAL_HOST : string :=
  if docker then or_default (dict_get environ "DOCKERHOST") "host.docker.internal"
  else "127.0.0.1".

Definition DEFAULT_EXTERNAL_HOST : string :=
  if docker then DEFAULT_INTERNAL_HOST else "localhost".

Definition DEFAULT_BIN_PATH : string := if docker then "./bin" else "../bin".

Definition DEFAULT_PYTHON_PATH : string := if docker then "." else "..".

(** [DemoAgent.__init__]; [rand] is the draw of [random.randint]. *)
Definition __init__ (ident : string) (http_port admin_port : Z)
  (internal_host external_host genesis_data label color prefix : option string)
  (timing : bool) (postgres : option bool)
  (extra_args : option (list (list string))) (params : dict string)
  (rand : Z) : DemoAgent :=
  let external := or_default external_host DEFAULT_EXTERNAL_HOST in
  let rand_name := PyStr.of_int rand in
  {| ident := ident;
     http_port := http_port;
     admin_port := admin_port;
     internal_host := or_default internal_host DEFAULT_INTERNAL_HOST;
     external_host := external;
     genesis_data := genesis_data;
     label := or_default label ident;
     color := color;
     prefix := prefix;
     timing := timing;
     postgres := match postgres with None => DEFAULT_POSTGRES | Some b => b end;
     extra_args := extra_args;
     endpoint := "http://" ++ external ++ ":" ++ PyStr.of_int http_port;
     admin_url := "http://" ++ external ++ ":" ++ PyStr.of_int admin_port;
     webhook_port := None;
     webhook_url := None;
     webhook_site := None;
     params := params;
     proc := None;
     seed := or_default (dict_get params "seed")
               (PyStr.last 32 ("my_seed_000000000000000000000000" ++ rand_name));
     storage_type := dict_get params "storage_type";
     wallet_type := match dict_get params "wallet_type" with
                    | Some v => v
                    | None => "indy"
                    end;
     wallet_name := or_default (dict_get params "wallet_name")
                      (PyStr.remove_spaces (PyStr.lower ident) ++ rand_name);
     wallet_key := or_default (dict_get params "wallet_key") (ident ++ rand_name);
     did := JNull |}.

(** [DemoAgent.get_agent_args]: one inner list per tuple or flag. *)
Definition get_agent_args (a : DemoAgent) : list (list string) :=
  ([ ["--endpoint"; endpoint a];
     ["--label"; label a];
     ["--auto-respond-messages"];
     ["--accept-invites"];
     ["--accept-requests"];
     ["--auto-ping-connection"];
     ["--inbound-transport"; "http"; "0.0.0.0"; PyStr.of_int (http_port a)];
     ["--outbound-transport"; "http"];
     ["--admin"; "0.0.0.0"; PyStr.of_int (admin_port a)];
     ["--wallet-type"; wallet_type a];
     ["--wallet-name"; wallet_name a];
     ["--wallet-key"; wallet_key a];
     ["--seed"; seed a] ]
   ++ (match genesis_data a with
       | Some g => if PyStr.truthy g then [["--genesis-transactions"; g]] else []
       | None => []
       end)
   ++ (match storage_type a with
       | Some t => if PyStr.truthy t then [["--storage-type"; t]] else []
       | None => []
       end)
   ++ (if timing a then [["--timing"]] else [])
   ++ (if postgres a then
         [ ["--wallet-storage-type"; "postgres_storage"];
           ["--wallet-storage-config";
            json_dumps (JDict [("url", JStr (internal_host a ++ ":5432"));
                               ("tls", JStr "None");
                               ("max_connections", JInt 5);
                               ("min_idle_time", JInt 0);
                               ("connection_timeout", JInt 10)])];
           ["--wallet-storage-creds";
            json_dumps (JDict [("account", JStr "postgres");
                               ("password", JStr "mysecretpassword");
                               ("admin_account", JStr "postgres");
                               ("admin_password", JStr "mysecretpassword")])] ]
       else [])
   ++ (match webhook_url a with
       | Some u => if PyStr.truthy u then [["--webhook-url"; u]] else []
       | None => []
       end)
   ++ (match extra_args a with
       | Some extra => extra
       | None => []
       end))%list.

(** [DemoAgent.prefix_str] *)
Definition prefix_str (a : DemoAgent) : option string :=
  match prefix a with
  | Some p => if PyStr.truthy p then Some (PyStr.ljust 10 p ++ " |") else None
  | None => None
  end.

(** [DemoAgent.handle_output] *)
Definition handle_output (output : list json) (source : option string) : M unit :=
  a <- get_self ;;
  let end_ := if is_set source then "" else String "010"%char "" in
  let color :=
    if match source with Some src => String.eqb src "stderr" | None => false end
    then Some "fg:ansired"
    else if negb (is_set source) then Some (or_default (color a) "fg:ansiblue")
    else None in
  emit (EvLog {| log_output := output; log_color := color;
                 log_prefix := prefix_str a; log_end := end_ |}).

(** [DemoAgent.log] *)
Definition log (msg : string) : M unit := handle_output [JStr msg] None.

(** [DemoAgent.log_json] *)
Definition log_json (data : json) (label : option string) : M unit :=
  a <- get_self ;;
  emit (EvLogJson data label (prefix_str a)).

(** [DemoAgent.log_timer]: it hands back the timer of [utils], which logs
    through [log] when it is used; making it changes nothing. *)
Definition log_timer (label : string) (show : bool) : M unit := ret tt.

(** [DemoAgent.register_did] *)
Definition register_did (ledger_url alias : option string) : M unit :=
  a <- get_self ;;
  log ("Registering " ++ ident a ++ " with seed " ++ seed a) ;;
  let ledger_url := or_default ledger_url ("http://" ++ external_host a ++ ":9000") in
  let data := JDict [("alias", JStr (or_default alias (ident a)));
                     ("seed", JStr (seed a));
                     ("role", JStr "TRUST_ANCHOR")] in
  resp <- client_request {| rq_method := "POST";
                            rq_url := ledger_url ++ "/register";
                            rq_json := Some data |} ;;
  (if negb (fst resp =? 200) then
     raise (Exception ("Error registering DID, response code " ++ PyStr.of_int (fst resp)))
   else
     match json_loads (snd resp) with
     | None => raise (JSONDecodeError (snd resp))
     | Some (JDict members) =>
         match dict_get members "did" with
         | Some d => modify_self (set_did d)
         | None => raise (KeyError "did")
         end
     | Some _ => raise (TypeError "the decoded response cannot be indexed by a string")
     end) ;;
  a' <- get_self ;;
  log ("Got DID: " ++ py_str (did a')).

(** [DemoAgent._process]: the child is started; the two reader threads that
    relay its output to [handle_output] run beside the event loop and are
    left out. *)
Definition _process (args : list string) (env : dict string) : M Popen :=
  w <- get_world ;;
  emit (EvSpawn args env) ;;
  match popen w args env with
  | Ok p => ret p
  | Raise e => raise e
  end.

(** [os.path.join(dir, name)] for a non-empty [dir] and a relative [name] *)
Definition path_join (dir name : string) : string :=
  if String.eqb (PyStr.last 1 dir) "/" then dir ++ name else dir ++ "/" ++ name.

(** [DemoAgent.get_process_args]; [flatten] concatenates the groups. *)
Definition get_process_args (a : DemoAgent) (bin_path : option string) : list string :=
  let bin_path := match bin_path with None => DEFAULT_BIN_PATH | Some b => b end in
  let cmd_path := if PyStr.truthy bin_path then path_join bin_path "acagent"
                  else "acagent" in
  concat (["python3"; cmd_path] :: get_agent_args a).

(** [DemoAgent.detect_process]: the body of the [for] loop runs [n] more
    times; [text] is the local variable of that name. *)
Definition probe (a : DemoAgent) : request :=
  {| rq_method := "GET"; rq_url := admin_url a ++ "/api/docs/swagger.json";
     rq_json := None |}.

Inductive loop_exit : Type :=
| Break (text : option string)
| Continue (text : option string).

Fixpoint detect_loop (n : nat) (text : option string) : M (option string) :=
  match n with
  | O => ret text
  | S n' =>
      sleep 2 ;;
      a <- get_self ;;
      step <- try_except
                (resp <- client_request (probe a) ;;
                 if fst resp =? 200 then ret (Break (Some (snd resp)))
                 else ret (Continue text))
                is_ClientError
                (fun _ => ret (Continue None)) ;;
      match step with
      | Break text' => ret text'
      | Continue text' => detect_loop n' text'
      end
  end.

Definition timed_out : exn :=
  Exception "Timed out waiting for agent process to start".

Definition unexpected_response : exn :=
  Exception "Unexpected response from agent process".

Definition detect_process : M unit :=
  text <- detect_loop 10 None ;;
  match text with
  | None => raise timed_out
  | Some t =>
      if negb (PyStr.truthy t) then raise timed_out
      else if negb (PyStr.contains "Aries Cloud Agent" t) then raise unexpected_response
      else ret tt
  end.

(** [DemoAgent.start_process] *)
Definition start_process (python_path bin_path : option string) (wait : bool) : M unit :=
  let python_path := match python_path with
                     | None => DEFAULT_PYTHON_PATH
                     | Some p => p
                     end in
  let my_env := if PyStr.truthy python_path
                then dict_set environ "PYTHONPATH" python_path
                else environ in
  a <- get_self ;;
  let agent_args := get_process_args a bin_path in
  p <- _process agent_args my_env ;;
  modify_self (set_proc (Some p)) ;;
  if wait then detect_process else ret tt.

(** The handle after [wait] has returned. *)
Definition exited (p : Popen) (code : Z) : Popen :=
  {| popen_args := popen_args p; returncode := Some code;
     exits_within := exits_within p |}.

(** [DemoAgent._terminate] *)
Definition _terminate : M unit :=
  a <- get_self ;;
  match proc a with
  | None => ret tt
  | Some p =>
      match returncode p with          (* proc.poll() *)
      | Some _ => ret tt
      | None =>
          emit EvSigterm ;;
          emit (EvWait (1 # 2)) ;;
          match exits_within p (1 # 2) with
          | Some code =>
              modify_self (set_proc (Some (exited p code))) ;;
              log ("Exited with return code " ++ PyStr.of_int code)
          | None =>                    (* subprocess.TimeoutExpired *)
              let msg := "Process did not terminate in time" in
              log msg ;;
              raise (Exception msg)
          end
      end
  end.

(** [DemoAgent.terminate] *)
Definition terminate : M unit :=
  a <- get_self ;;
  (match proc a with
   | Some _ => _terminate
   | None => ret tt
   end) ;;
  emit EvSessionClose ;;
  a' <- get_self ;;
  match webhook_site a' with
  | Some site => emit (EvSiteStop (site_port site))
  | None => ret tt
  end.

(** [DemoAgent.handle_webhook] and the call it awaits.  Calling the
    inherited [handle_output] logs the payload and returns [None], which
    cannot be awaited; the inherited [handle_webhook] takes two arguments. *)
Definition getattr_handle (name : string) : option attribute :=
  match handlers name with
  | Some body => Some (SubclassMethod body)
  | None =>
      if String.eqb name "handle_output" then Some Own_handle_output
      else if String.eqb name "handle_webhook" then Some Own_handle_webhook
      else None
  end.

Definition await_method (name : string) (method : attribute) (payload : json) : M unit :=
  emit (EvHandler name payload) ;;
  match method with
  | SubclassMethod body => body payload
  | Own_handle_output =>
      handle_output [payload] None ;;
      raise (TypeError "object NoneType can't be used in 'await' expression")
  | Own_handle_webhook =>
      raise (TypeError "handle_webhook() missing 1 required positional argument: 'payload'")
  end.

Definition handle_webhook (topic : string) (payload : json) : M unit :=
  if negb (String.eqb topic "webhook") then   (* would recurse *)
    match getattr_handle ("handle_" ++ topic) with
    | Some method => await_method ("handle_" ++ topic) method payload
    | None => ret tt
    end
  else ret tt.

(** [DemoAgent._receive_webhook] for a request routed with [topic] and
    carrying [body].  The dispatcher it awaits is the attribute
    [handle_webhook] of the instance: the method above, unless the subclass
    has a coroutine of that name.  Such a coroutine takes the payload
    alone, and calling it with a topic and a payload is a [TypeError]. *)
Definition _receive_webhook (topic body : string) : M web_response :=
  payload <- match json_loads body with
             | Some v => ret v
             | None => raise (JSONDecodeError body)
             end ;;
  match handlers "handle_webhook" with
  | Some _ =>
      raise (TypeError "handle_webhook() takes 2 positional arguments but 3 were given")
  | None => handle_webhook topic payload
  end ;;
  ret {| resp_status := 200; resp_text := "" |}.

(** [DemoAgent.listen_webhooks] *)
Definition listen_webhooks (port : Z) : M unit :=
  modify_self (set_webhook_port (Some port)) ;;
  a <- get_self ;;
  modify_self (set_webhook_url
    (Some ("http://" ++ external_host a ++ ":" ++ PyStr.of_int port ++ "/webhooks"))) ;;
  modify_self (set_webhook_site (Some {| site_host := "0.0.0.0"; site_port := port |})) ;;
  w <- get_world ;;
  emit (EvSiteStart "0.0.0.0" port) ;;
  match site_start w port with
  | Some e => raise e
  | None => ret tt
  end.

(** [DemoAgent.admin_request] *)
Definition admin_request (method path : string) (data : option json) (text : bool)
  : M json :=
  a <- get_self ;;
  resp <- client_request {| rq_method := method; rq_url := admin_url a ++ path;
                            rq_json := data |} ;;
  let status := fst resp in
  let resp_text := snd resp in
  if (status <? 200) || (status >? 299) then
    raise (Exception ("Unexpected HTTP response: " ++ PyStr.of_int status))
  else if negb (PyStr.truthy resp_text) && negb text then ret JNull
  else if negb text then
    match json_loads resp_text with
    | Some v => ret v
    | None => raise (Exception ("Error decoding JSON: " ++ resp_text))
    end
  else ret (JStr resp_text).

(** [DemoAgent.admin_GET] *)
Definition admin_GET (path : string) (text : bool) : M json :=
  admin_request "GET" path None text.

(** [DemoAgent.admin_POST] *)
Definition admin_POST (path : string) (data : option json) (text : bool) : M json :=
  admin_request "POST" path data text.

(** [DemoAgent.fetch_timing] *)
Definition fetch_timing : M json :=
  status <- admin_GET "/status" false ;;
  match status with
  | JDict members =>
      ret (match dict_get members "timing" with Some v => v | None => JNull end)
  | _ => raise (OtherError "AttributeError" "object has no attribute 'get'")
  end.

(** [DemoAgent.reset_timing] *)
Definition reset_timing : M unit :=
  admin_POST "/status/reset" None true ;;
  ret tt.

End DemoAgentClass.

(** ** A decoder to run the model with

    It reads the part of JSON made of [null], [true], [false], integers,
    strings without escapes, arrays and objects, and rejects the rest. *)

Module SampleJson.

Definition dq : ascii := "034"%char.

Definition quoted (s : string) : string := String dq s ++ String dq "".

Definition is_ws (c : ascii) : bool :=
  Ascii.eqb c " "%char || Ascii.eqb c "009"%char ||
  Ascii.eqb c "010"%char || Ascii.eqb c "013"%char.

Fixpoint skip_ws (s : string) : string :=
  match s with
  | String c rest => if is_ws c then skip_ws rest else s
  | EmptyString => s
  end.

Definition digit_of (c : ascii) : option Z :=
  let n := nat_of_ascii c in
  if ((48 <=? n) && (n <=? 57))%nat then Some (Z.of_nat (n - 48)) else None.

Fixpoint read_digits (acc : Z) (s : string) : Z * string :=
  match s with
  | String c rest =>
      match digit_of c with
      | Some d => read_digits (10 * acc + d) rest
      | None => (acc, s)
      end
  | EmptyString => (acc, s)
  end.

(** An integer literal without sign: no leading zero, no fraction, no
    exponent. *)
Definition read_nat (s : string) : option (Z * string) :=
  match s with
  | String c rest =>
      match digit_of c with
      | None => None
      | Some d =>
          let '(n, rest') := if d =? 0 then (0, rest) else read_digits d rest in
          match rest' with
          | String c' _ =>
              if Ascii.eqb c' "."%char || Ascii.eqb c' "e"%char ||
                 Ascii.eqb c' "E"%char ||
                 match digit_of c' with Some _ => true | None => false end
              then None else Some (n, rest')
          | EmptyString => Some (n, rest')
          end
      end
  | EmptyString => None
  end.

(** The characters up to the closing quote. *)
Fixpoint read_string (s : string) : option (string * string) :=
  match s with
  | EmptyString => None
  | String c rest =>
      if Ascii.eqb c dq then Some ("", rest)
      else if Ascii.eqb c "\"%char || (nat_of_ascii c <? 32)%nat then None
      else match read_string rest with
           | Some (body, rest') => Some (String c body, rest')
           | None => None
           end
  end.

Definition drop (n : nat) (s : string) : string :=
  substring n (String.length s - n) s.

Fixpoint read_value (fuel : nat) (s : string) : option (json * string) :=
  match fuel with
  | O => None
  | S fuel' =>
      let s := skip_ws s in
      if String.prefix "null" s then Some (JNull, drop 4 s)
      else if String.prefix "true" s then Some (JBool true, drop 4 s)
      else if String.prefix "false" s then Some (JBool false, drop 5 s)
      else
        match s with
        | EmptyString => None
        | String c rest =>
            if Ascii.eqb c dq then
              match read_string rest with
              | Some (str, rest') => Some (JStr str, rest')
              | None => None
              end
            else if Ascii.eqb c "-"%char then
              match read_nat rest with
              | Some (n, rest') => Some (JInt (- n), rest')
              | None => None
              end
            else if Ascii.eqb c "["%char then
              match skip_ws rest with
              | String "]"%char rest' => Some (JList [], rest')
              | _ =>
                  match read_items fuel' rest with
                  | Some (items, rest') => Some (JList items, rest')
                  | None => None
                  end
              end
            else if Ascii.eqb c "{"%char then
              match skip_ws rest with
              | String "}"%char rest' => Some (JDict [], rest')
              | _ =>
                  match read_members fuel' [] rest with
                  | Some (members, rest') => Some (JDict members, rest')
                  | None => None
                  end
              end
            else
              match read_nat s with
              | Some (n, rest') => Some (JInt n, rest')
              | None => None
              end
        end
  end
with read_items (fuel : nat) (s : string) : option (list json * string) :=
  match fuel with
  | O => None
  | S fuel' =>
      match read_value fuel' s with
      | None => None
      | Some (v, rest) =>
          match skip_ws rest with
          | String "]"%char rest' => Some ([v], rest')
          | String ","%char rest' =>
              match read_items fuel' rest' with
              | Some (vs, rest'') => Some (v :: vs, rest'')
              | None => None
              end
          | _ => None
          end
      end
  end
with read_members (fuel : nat) (acc : dict json) (s : string)
  : option (dict json * string) :=
  match fuel with
  | O => None
  | S fuel' =>
      match skip_ws s with
      | String c rest =>
          if Ascii.eqb c dq then
            match read_string rest with
            | None => None
            | Some (k, rest1) =>
                match skip_ws rest1 with
                | String ":"%char rest2 =>
                    match read_value fuel' rest2 with
                    | None => None
                    | Some (v, rest3) =>
                        let acc' := dict_set acc k v in
                        match skip_ws rest3 with
                        | String "}"%char rest4 => Some (acc', rest4)
                        | String ","%char rest4 => read_members fuel' acc' rest4
                        | _ => None
                        end
                    end
                | _ => None
                end
            end
          else None
      | EmptyString => None
      end
  end.

Definition loads (s : string) : option json :=
  match read_value (S (S (String.length s))) s with
  | Some (v, rest) =>
      match skip_ws rest with
      | EmptyString => Some v
      | _ => None
      end
  | None => None
  end.

Definition loads_empty : loads "" = None := eq_refl.

(** The inverse on that part of JSON, spaced as [json.dumps] does; floats,
    which [loads] never yields, are all written as [NaN]. *)
Fixpoint dumps (v : json) : string :=
  match v with
  | JNull => "null"
  | JBool true => "true"
  | JBool false => "false"
  | JInt n => PyStr.of_int n
  | JFloat _ => "NaN"
  | JStr s => quoted s
  | JList items =>
      "[" ++ (fix join (l : list json) : string :=
                match l with
                | [] => ""
                | x :: rest =>
                    dumps x ++ match rest with [] => "" | _ => ", " ++ join rest end
                end) items ++ "]"
  | JDict members =>
      "{" ++ (fix join (l : list (string * json)) : string :=
                match l with
                | [] => ""
                | (k, x) :: rest =>
                    quoted k ++ ": " ++ dumps x ++
                    match rest with [] => "" | _ => ", " ++ join rest end
                end) members ++ "}"
  end.

#[export] Instance decoder : JsonDecoder :=
  {| json_loads := loads; json_loads_empty := loads_empty |}.

End SampleJson.

(** ** Vocabulary of the statements *)

(** The GET of the swagger document on the admin URL. *)
Definition swagger_request (a : DemoAgent) : request :=
  {| rq_method := "GET";
     rq_url := admin_url a ++ "/api/docs/swagger.json";
     rq_json := None |}.

(** The answer to the [i]-th request issued from state [s] on, when that
    request is the readiness probe. *)
Definition poll (s : State) (i : nat) : http_outcome :=
  http_client (world s) (requests_made (world s) + i)%nat (swagger_request (self s)).

(** The answers after which the probe loop goes round again: a client
    error, or a status other than 200. *)
Definition keeps_polling (o : http_outcome) : bool :=
  match o with
  | Fails e => is_ClientError e
  | Responds status _ => negb (status =? 200)
  end.


(** [k] rounds of the probe loop: a sleep of two seconds, then the GET. *)
Definition poll_events (a : DemoAgent) (k : nat) : list event :=
  concat (repeat [EvSleep 2; EvRequest (swagger_request a)] k).

Definition after_events (n : nat) (evs : list event) (s : State) : State :=
  {| self := self s;
     world := {| http_client := http_client (world s);
                 requests_made := (requests_made (world s) + n)%nat;
                 popen := popen (world s);
                 site_start := site_start (world s);
                 trace := (trace (world s) ++ evs)%list |} |}.

Definition after_polls (k : nat) (s : State) : State :=
  after_events k (poll_events (self s) k) s.

(** The calls of [handle_*] methods found in a trace. *)
Fixpoint handler_calls (evs : list event) : list (string * json) :=
  match evs with
  | [] => []
  | EvHandler name payload :: rest => (name, payload) :: handler_calls rest
  | _ :: rest => handler_calls rest
  end.

(** The record [handle_output] logs for a message of the agent itself. *)
Definition log_line (a : DemoAgent) (output : list json) : event :=
  EvLog {| log_output := output;
           log_color := Some (or_default (color a) "fg:ansiblue");
           log_prefix := prefix_str a;
           log_end := String "010"%char "" |}.

(** The two URLs fixed by the constructor are the same in both states. *)
Definition urls_kept (s s' : State) : Prop :=
  endpoint (self s') = endpoint (self s) /\
  admin_url (self s') = admin_url (self s).

(** A computation that never assigns [endpoint] or [admin_url]. *)
Definition keeps_urls {A} (m : M A) : Prop :=
  forall s, urls_kept s (snd (m s)).

(** Every metric counted has its total, average, minimum and maximum. *)
Definition complete (t : timing_report) : Prop :=
  forall name count, In (name, count) (t_count t) ->
  dict_get (t_total t) name <> None /\ dict_get (t_avg t) name <> None /\
  dict_get (t_min t) name <> None /\ dict_get (t_max t) name <> None.

Definition not_nan (x : spec_float) : Prop := x <> S754_nan.

(** The row [r1] may stand above [r2]: its total is the greater or equal. *)
Definition total_ge (r1 r2 : timing_row) : Prop :=
  SFleb (row_total r2) (row_total r1) = true.

(** The six fields of a data line, as laid out by the format. *)
Definition row_columns (r : timing_row) : list string :=
  [ PyStr.ljust 35 (row_name r); PyFormat.fmt_d 12 (row_count r);
    PyFormat.fmt_f3 12 (row_total r); PyFormat.fmt_f3 10 (row_avg r);
    PyFormat.fmt_f3 10 (row_min r); PyFormat.fmt_f3 10 (row_max r) ].

Definition column_widths : list nat := [35; 12; 12; 10; 10; 10]%nat.

(** Each number of the row, once printed, is no wider than its column. *)
Definition fits (r : timing_row) : bool :=
  ((String.length (PyStr.of_int (row_count r)) <=? 12) &&
   (String.length (PyFormat.fixed3 (row_total r)) <=? 12) &&
   (String.length (PyFormat.fixed3 (row_avg r)) <=? 10) &&
   (String.length (PyFormat.fixed3 (row_min r)) <=? 10) &&
   (String.length (PyFormat.fixed3 (row_max r)) <=? 10))%nat.

(** The request [admin_request] sends. *)
Definition admin_call (a : DemoAgent) (method path : string) (data : option json)
  : request :=
  {| rq_method := method; rq_url := admin_url a ++ path; rq_json := data |}.

(** The next answer of the client session to [r]. *)
Definition next_answer (s : State) (r : request) : http_outcome :=
  http_client (world s) (requests_made (world s)) r.

(** The message of the termination failure. *)
Definition not_in_time : string := "Process did not terminate in time".

(** A rank in [Z * Z * Z] whose lexicographic order is the one [SFcompare]
    computes on floats other than NaN. *)
Definition float_rank (x : spec_float) : Z * Z * Z :=
  match x with
  | S754_infinity true => (-2, 0, 0)
  | S754_finite true m e => (-1, - e, - Zpos m)
  | S754_zero _ => (0, 0, 0)
  | S754_nan => (0, 0, 0)
  | S754_finite false m e => (1, e, Zpos m)
  | S754_infinity false => (2, 0, 0)
  end.

Definition lex_compare (a b : Z * Z * Z) : comparison :=
  let '(a1, a2, a3) := a in
  let '(b1, b2, b3) := b in
  match a1 ?= b1 with
  | Eq => match a2 ?= b2 with
          | Eq => a3 ?= b3
          | c => c
          end
  | c => c
  end.

(** A row as the loop builds it: name cut to 35 characters, count from the
    count dictionary, total from the total dictionary. *)
Definition row_of (t : timing_report) (r : timing_row) : Prop :=
  exists name,
    row_name r = PyStr.take 35 name /\
    In (name, row_count r) (t_count t) /\
    In (name, row_total r) (t_total t).

(** The request [register_did] sends to the ledger. *)
Definition register_request (a : DemoAgent) (ledger_url alias : option string)
  : request :=
  {| rq_method := "POST";
     rq_url := or_default ledger_url ("http://" ++ external_host a ++ ":9000")
               ++ "/register";
     rq_json := Some (JDict [("alias", JStr (or_default alias (ident a)));
                             ("seed", JStr (seed a));
                             ("role", JStr "TRUST_ANCHOR")]) |}.

(** The state after the first log line and the POST. *)
Definition registering (ledger_url alias : option string) (s : State) : State :=
  after_events 1
    [log_line (self s)
       [JStr ("Registering " ++ ident (self s) ++ " with seed " ++ seed (self s))];
     EvRequest (register_request (self s) ledger_url alias)] s.

(** The metric has its four statistics. *)
Definition has_statistics (t : timing_report) (name : string) : Prop :=
  dict_get (t_total t) name <> None /\ dict_get (t_avg t) name <> None /\
  dict_get (t_min t) name <> None /\ dict_get (t_max t) name <> None.

(** The total of the row is neither smaller nor greater than [k]. *)
Definition same_total (k : spec_float) (r : timing_row) : bool :=
  level row_total SFltb k r.

(** The environment [start_process] hands to the child: [os.environ] with
    [PYTHONPATH] set, unless the path is empty. *)
Definition child_env (environ : dict string) (python_path : option string)
  : dict string :=
  let path := match python_path with
              | None => DEFAULT_PYTHON_PATH environ
              | Some p => p
              end in
  if PyStr.truthy path then dict_set environ "PYTHONPATH" path else environ.

(** The state once the child [p] is started and assigned to [proc]. *)
Definition spawned (p : Popen) (args : list string) (env : dict string) (s : State)
  : State :=
  {| self := set_proc (Some p) (self s);
     world := record (EvSpawn args env) (world s) |}.

(** The methods of [DemoAgent] that run on the state, with their arguments;
    [get_agent_args], [get_process_args], [prefix_str] and [format_timing]
    are functions and leave it alone. *)
Inductive method_call : Type :=
| Call_register_did (ledger_url alias : option string)
| Call_handle_output (output : list json) (source : option string)
| Call_log (msg : string)
| Call_log_json (data : json) (label : option string)
| Call_log_timer (label : string) (show : bool)
| Call_start_process (python_path bin_path : option string) (wait : bool)
| Call__terminate
| Call_terminate
| Call_listen_webhooks (port : Z)
| Call__receive_webhook (topic body : string)
| Call_handle_webhook (topic : string) (payload : json)
| Call_admin_request (method path : string) (data : option json) (text : bool)
| Call_admin_GET (path : string) (text : bool)
| Call_admin_POST (path : string) (data : option json) (text : bool)
| Call_detect_process
| Call_fetch_timing
| Call_reset_timing.

Definition discard {A} (m : M A) : M unit := (m ;; ret tt)%monad.

Section Calls.

Context {decoder : JsonDecoder}.
Variable json_dumps : json -> string.
Variable environ : dict string.
Variable handlers : string -> option (json -> M unit).
Variable py_str : json -> string.

Definition run_call (c : method_call) : M unit :=
  match c with
  | Call_register_did ledger_url alias => register_did py_str ledger_url alias
  | Call_handle_output output source => handle_output output source
  | Call_log msg => log msg
  | Call_log_json data label => log_json data label
  | Call_log_timer label show => log_timer label show
  | Call_start_process python_path bin_path wait =>
      start_process json_dumps environ python_path bin_path wait
  | Call__terminate => _terminate
  | Call_terminate => terminate
  | Call_listen_webhooks port => listen_webhooks port
  | Call__receive_webhook topic body => discard (_receive_webhook handlers topic body)
  | Call_handle_webhook topic payload => handle_webhook handlers topic payload
  | Call_admin_request method path data text =>
      discard (admin_request method path data text)
  | Call_admin_GET path text => discard (admin_GET path text)
  | Call_admin_POST path data text => discard (admin_POST path data text)
  | Call_detect_process => detect_process
  | Call_fetch_timing => discard fetch_timing
  | Call_reset_timing => reset_timing
  end.

(** Running a sequence of calls, whatever each of them returns or raises. *)
Fixpoint run_calls (cs : list method_call) (s : State) : State :=
  match cs with
  | [] => s
  | c :: rest => run_calls rest (snd (run_call c s))
  end.

End Calls.

(** ** States to run the model on *)

Module Sample.

Import SampleJson.

(** [DemoAgent("Alice", 8020, 8021)] outside docker, with the draw 123456. *)
Definition alice : DemoAgent :=
  __init__ [] "Alice" 8020 8021 None None None None None None false None None [] 123456.

Definition running (args : list string) : Popen :=
  {| popen_args := args; returncode := None; exits_within := fun _ => Some 0 |}.

(** A world where the client session answers with [answers]. *)
Definition world_of (answers : nat -> request -> http_outcome) : World :=
  {| http_client := answers;
     requests_made := 0;
     popen := fun args _ => Ok (running args);
     site_start := fun _ => None;
     trace := [] |}.

Definition state_of (answers : nat -> request -> http_outcome) : State :=
  {| self := alice; world := world_of answers |}.

(** The same answer to every request. *)
Definition always (o : http_outcome) : nat -> request -> http_outcome :=
  fun _ _ => o.

(** The listed answers in turn, then connection errors. *)
Definition script (answers : list http_outcome) : nat -> request -> http_outcome :=
  fun n _ => nth n answers (Fails (ClientError "Cannot connect to host")).

(** The double nearest to [m * 2^e]. *)
Definition double (m e : Z) : spec_float := binary_normalize 53 1024 m e false.

(** Three metrics; the name of the second is longer than its column. *)
Definition report : timing_report :=
  let long := "a_very_long_metric_name_that_exceeds_the_column" in
  {| t_count := [("unpack", 4); (long, 2); ("send", 10)];
     t_total := [("unpack", double 1 (-2)); (long, double 25 (-1)); ("send", double 3 0)];
     t_avg := [("unpack", double 1 (-4)); (long, double 25 (-2)); ("send", double 5404319552844595 (-54))];
     t_min := [("unpack", double 1 (-4)); (long, double 1 (-4)); ("send", double 1 (-4))];
     t_max := [("unpack", double 7 0); (long, double 7 0); ("send", double 7 0)] |}.

(** One metric counted a million million times. *)
Definition wide_report : timing_report :=
  {| t_count := [("a", 1000000000000)];
     t_total := [("a", double 3 (-1))];
     t_avg := [("a", double 3 (-1))];
     t_min := [("a", double 3 (-1))];
     t_max := [("a", double 3 (-1))] |}.

(** *** Answers of the admin API *)

Definition ok_empty : State := state_of (always (Responds 200 "")).

Definition not_found : State := state_of (always (Responds 404 "Not Found")).

Definition ok_json : State :=
  state_of (always (Responds 200 ("{" ++ quoted "timing" ++ ": null}"))).

Definition swagger : string := "{ info: { title: Aries Cloud Agent } }".


Definition never_started : State :=
  state_of (always (Fails (ClientError "Cannot connect to host"))).

(** Another service answers on the admin port. *)
Definition other_service : State :=
  state_of (always (Responds 200 "<html>It works!</html>")).

(** The client gives up with an error that is not a [ClientError]. *)
Definition client_timeout : State :=
  state_of (always (Fails (OtherError "TimeoutError" ""))).

(** Connection refused once, then 200 with nothing in the body. *)
Definition empty_answer : State :=
  state_of (script [Fails (ClientError "Cannot connect to host"); Responds 200 ""]).

(** A child that ignores the signal. *)
Definition stuck : Popen :=
  {| popen_args := ["python3"; "../bin/acagent"]; returncode := None;
     exits_within := fun _ => None |}.

Definition with_stuck_child : State :=
  {| self := set_proc (Some stuck) alice;
     world := world_of (always (Fails (ClientError "unused"))) |}.

(** A subclass whose handlers log what they receive. *)
Definition logging (what : string) (payload : json) : M unit :=
  handle_output [JStr what; payload] None.

Definition handlers (name : string) : option (json -> M unit) :=
  if (name =? "handle_connections")%string then Some (logging "Connection:")
  else if (name =? "handle_webhook")%string then Some (logging "Webhook:")
  else None.

(** A subclass with a handler for one topic, and no [handle_webhook] of its
    own. *)
Definition topic_handlers (name : string) : option (json -> M unit) :=
  if (name =? "handle_connections")%string then Some (logging "Connection:")
  else None.

Definition idle : State := state_of (always (Fails (ClientError "unused"))).

Definition active : string := "{" ++ quoted "state" ++ ":" ++ quoted "active" ++ "}".

Definition active_payload : json := JDict [("state", JStr "active")].

(** A demo run: listen, start the agent, ask for its status, receive a
    webhook, stop. *)
Definition session : list method_call :=
  [ Call_listen_webhooks 8022;
    Call_start_process None None true;
    Call_admin_GET "/status" false;
    Call__receive_webhook "connections" active;
    Call_terminate ].

Definition ready : World :=
  world_of (script [Responds 200 swagger; Responds 200 "{}"]).

(** The state at the end of that run; values are printed as JSON. *)
Definition after_session : State :=
  run_calls dumps [] handlers dumps session {| self := alice; world := ready |}.

(** A metric with a count and a total, but no average. *)
Definition partial_report : timing_report :=
  {| t_count := [("a", 1)];
     t_total := [("a", double 3 (-1))];
     t_avg := [];
     t_min := [("a", double 3 (-1))];
     t_max := [("a", double 3 (-1))] |}.

Definition wide_line : string :=
  "a                                   | 1000000000000        1.500      1.500      1.500      1.500".

(** *** States for the further properties *)

(** The status document again, answered with 201. *)
Definition created_json : State :=
  state_of (always (Responds 201 ("{" ++ quoted "timing" ++ ": null}"))).

(** A page that is not JSON. *)
Definition ok_html : State := state_of (always (Responds 200 "<html>")).

(** The environment of the parent. *)
Definition parent_env : dict string :=
  [("PATH", "/usr/bin"); ("PYTHONPATH", "/opt/lib")].

(** A machine without the interpreter. *)
Definition no_python : State :=
  {| self := alice;
     world := {| http_client := always (Fails (ClientError "unused"));
                 requests_made := 0;
                 popen := fun _ _ => Raise (OtherError "FileNotFoundError" "python3");
                 site_start := fun _ => None;
                 trace := [] |} |}.

(** The command line and the environment of the child of [alice]. *)
Definition alice_args : list string := get_process_args dumps [] alice None.

Definition alice_env : dict string := child_env [] None.

(** A child that goes away when signalled. *)
Definition with_child : State :=
  {| self := set_proc (Some (running alice_args)) alice; world := world idle |}.

(** Agents constructed with parameters. *)
Definition with_seed : DemoAgent :=
  __init__ [] "Alice" 8020 8021 None None None None None None false None None
    [("seed", "alice_seed_000000000000000000001")] 123456.

Definition faber : DemoAgent :=
  __init__ [] "Faber" 8030 8031 None None None None None (Some "Faber") false None None
    [] 123456.

(** Answers of the ledger. *)
Definition ledger_ok : State :=
  state_of (always (Responds 200
    ("{" ++ quoted "did" ++ ": " ++ quoted "Th7MpTaRZVRYnPiabds81Y" ++ "}"))).

Definition ledger_down : State := state_of (always (Responds 503 "")).

(** Four metrics; the first and the third took the same total time. *)
Definition tied_report : timing_report :=
  {| t_count := [("first", 1); ("second", 2); ("third", 3); ("fourth", 4)];
     t_total := [("first", double 2 0); ("second", double 5 0);
                 ("third", double 2 0); ("fourth", double 1 0)];
     t_avg := [("first", double 2 0); ("second", double 5 (-1));
               ("third", double 2 0); ("fourth", double 1 (-2))];
     t_min := [("first", double 2 0); ("second", double 1 0);
               ("third", double 1 (-1)); ("fourth", double 1 (-3))];
     t_max := [("first", double 2 0); ("second", double 4 0);
               ("third", double 1 0); ("fourth", double 1 (-1))] |}.

Definition tied_collected : list timing_row :=
  match collect_rows tied_report (t_count tied_report) with
  | Ok rows => rows
  | Raise _ => []
  end.

Definition tied_rows : list timing_row :=
  match sorted_rows tied_report with Ok rows => rows | Raise _ => [] end.

(** An agent with every option set: genesis transactions, timing, postgres
    and a storage type. *)
Definition optioned : DemoAgent :=
  __init__ [] "Faber" 8030 8031 None None (Some "genesis") None None None true
    (Some true) None [("storage_type", "postgres_storage")] 123456.

(** The rows of [report], as collected and as sorted. *)
Definition report_collected : list timing_row :=
  match collect_rows report (t_count report) with Ok rows => rows | Raise _ => [] end.

Definition report_rows : list timing_row :=
  match sorted_rows report with Ok rows => rows | Raise _ => [] end.

Definition report_lines : list string :=
  match format_timing report with Ok lines => lines | Raise _ => [] end.

End Sample.

(** * Properties *)

Local Open Scope monad_scope.

(** ** Reasoning about runs *)

Ltac unfold_monad :=
  unfold discard, sleep, bind, ret, raise, get_self, get_world, modify_self,
    emit, client_request, try_except in *.

Ltac settle :=
  cbn; repeat split; intros;
  repeat match goal with
         | H : _ \/ _ |- _ => destruct H
         | H : _ /\ _ |- _ => destruct H
         end;
  try lia; try discriminate; try congruence; auto.

Lemma after_events_nil (s : State) : after_events 0 [] s = s.
Proof.
  destruct s as [a [h n p st t]]. unfold after_events. simpl.
  now rewrite Nat.add_0_r, app_nil_r.
Qed.

Lemma after_events_compose (n m : nat) (e1 e2 : list event) (s : State) :
  after_events m e2 (after_events n e1 s) = after_events (n + m) (e1 ++ e2) s.
Proof.
  unfold after_events. simpl. now rewrite Nat.add_assoc, app_assoc.
Qed.

(** ** admin_request *)

Section AdminRequest.

Context {decoder : JsonDecoder}.

(** What [admin_request] does with a response, as a function of the
    status, the text and the [text] flag. *)
Lemma admin_request_run (method path : string) (data : option json) (text : bool)
  (s : State) (status : Z) (body : string) :
  next_answer s (admin_call (self s) method path data) = Responds status body ->
  admin_request method path data text s =
  (if (status <? 200) || (status >? 299) then
     Raise (Exception ("Unexpected HTTP response: " ++ PyStr.of_int status))
   else if negb (PyStr.truthy body) && negb text then Ok JNull
   else if negb text then
     match json_loads body with
     | Some v => Ok v
     | None => Raise (Exception ("Error decoding JSON: " ++ body))
     end
   else Ok (JStr body),
   after_events 1 [EvRequest (admin_call (self s) method path data)] s).
Proof.
  unfold next_answer, admin_call. intros H.
  unfold admin_request. unfold_monad. simpl. rewrite H. simpl.
  assert (E : {| self := self s;
                 world := count_request
                   (record (EvRequest {| rq_method := method;
                                         rq_url := admin_url (self s) ++ path;
                                         rq_json := data |}) (world s)) |}
              = after_events 1 [EvRequest {| rq_method := method;
                                             rq_url := admin_url (self s) ++ path;
                                             rq_json := data |}] s).
  { unfold after_events, count_request, record. simpl.
    now rewrite Nat.add_1_r. }
  rewrite E.
  destruct ((status <? 200) || (status >? 299)); [reflexivity|].
  destruct (negb (PyStr.truthy body) && negb text); [reflexivity|].
  destruct (negb text); [|reflexivity].
  destruct (json_loads body); reflexivity.
Qed.

Lemma truthy_false_iff (s : string) : PyStr.truthy s = false <-> s = "".
Proof. destruct s; simpl; split; congruence. Qed.

(** What [admin_request] does with the response it is handed. *)
Lemma admin_request_on_response (method path : string) (data : option json)
  (text : bool) (s : State) (status : Z) (body : string) :
  next_answer s (admin_call (self s) method path data) = Responds status body ->
  let result := fst (admin_request method path data text s) in
  (raised result = true <->
     status < 200 \/ 299 < status \/
     (text = false /\ body <> "" /\ json_loads body = None)) /\
  (status < 200 \/ 299 < status ->
     result = Raise (Exception ("Unexpected HTTP response: " ++ PyStr.of_int status))) /\
  (200 <= status <= 299 -> text = false -> body <> "" -> json_loads body = None ->
     result = Raise (Exception ("Error decoding JSON: " ++ body))).
Proof.
  intros H. rewrite (admin_request_run method path data text s status body H).
  cbn [fst].
  destruct (status <? 200) eqn:Elo; [apply Z.ltb_lt in Elo | apply Z.ltb_ge in Elo];
    cbn [orb]; [settle|].
  destruct (status >? 299) eqn:Ehi; rewrite Z.gtb_ltb in Ehi;
    [apply Z.ltb_lt in Ehi | apply Z.ltb_ge in Ehi]; [settle|].
  destruct text; cbn [negb andb]; [rewrite andb_false_r; settle|].
  rewrite andb_true_r.
  destruct (PyStr.truthy body) eqn:Eb; cbn [negb].
  - assert (body <> "") by (intros ->; discriminate).
    destruct (json_loads body) eqn:Ej; settle.
  - apply truthy_false_iff in Eb. subst body. settle.
Qed.

(** What comes out when the client session raises. *)
Lemma admin_request_on_failure (method path : string) (data : option json)
  (text : bool) (s : State) (e : exn) :
  next_answer s (admin_call (self s) method path data) = Fails e ->
  fst (admin_request method path data text s) = Raise e.
Proof.
  unfold next_answer, admin_call. intros E.
  unfold admin_request. unfold_monad. cbn. now rewrite E.
Qed.

(** C3, as amended.  [admin_request] raises exactly when the client session
    raises instead of handing over a response, or the status of the
    response is outside 200..299, or, in non-text mode, the body is not
    empty and does not decode as JSON.  An exception of the session comes
    out as it is; the second error says [Unexpected HTTP response:] and the
    status, the third says [Error decoding JSON:] and the body.  In every
    other case the call returns. *)
Theorem admin_request_raises_iff (method path : string) (data : option json)
  (text : bool) (s : State) :
  let answer := next_answer s (admin_call (self s) method path data) in
  let result := fst (admin_request method path data text s) in
  (raised result = true <->
     (exists e, answer = Fails e) \/
     (exists status body,
        answer = Responds status body /\
        (status < 200 \/ 299 < status \/
         (text = false /\ body <> "" /\ json_loads body = None)))) /\
  (forall e, answer = Fails e -> result = Raise e) /\
  (forall status body, answer = Responds status body ->
     status < 200 \/ 299 < status ->
     result = Raise (Exception ("Unexpected HTTP response: " ++ PyStr.of_int status))) /\
  (forall status body, answer = Responds status body ->
     200 <= status <= 299 -> text = false -> body <> "" -> json_loads body = None ->
     result = Raise (Exception ("Error decoding JSON: " ++ body))).
Proof.
  cbv zeta.
  destruct (next_answer s (admin_call (self s) method path data))
    as [e | status body] eqn:E.
  - pose proof (admin_request_on_failure method path data text s e E) as F.
    rewrite F. repeat split.
    + intros _. left. now exists e.
    + intros e' [= <-]. reflexivity.
    + intros status body [=].
    + intros status body [=].
  - destruct (admin_request_on_response method path data text s status body E)
      as [Hiff [Hstatus Hdecode]].
    cbv zeta in Hiff, Hstatus, Hdecode.
    repeat split.
    + intros Hr. right. exists status, body. split; [reflexivity | now apply Hiff].
    + intros [[e [=]] | [st [bd [[= <- <-] Hc]]]]. now apply Hiff.
    + intros e [=].
    + intros st bd [= <- <-]. exact Hstatus.
    + intros st bd [= <- <-]. exact Hdecode.
Qed.

(** C2, as amended.  A 404 response makes [admin_request] raise, whatever
    the mode.  In the default mode ([text=False]) a 200 response with an
    empty body yields [None] and a 200 response whose body is valid JSON
    yields the decoded value.  [admin_GET] and [admin_POST] are the same
    call with the method filled in. *)
Theorem admin_request_default_mode (method path : string) (data : option json)
  (s : State) (status : Z) (body : string) :
  next_answer s (admin_call (self s) method path data) = Responds status body ->
  (status = 404 ->
     forall text, fst (admin_request method path data text s) =
                  Raise (Exception "Unexpected HTTP response: 404")) /\
  (status = 200 -> body = "" ->
     fst (admin_request method path data false s) = Ok JNull) /\
  (status = 200 -> forall v, json_loads body = Some v ->
     fst (admin_request method path data false s) = Ok v) /\
  (forall text, admin_GET path text = admin_request "GET" path None text) /\
  (forall text, admin_POST path data text = admin_request "POST" path data text).
Proof.
  intros H. repeat split; try reflexivity.
  - intros -> text. now rewrite (admin_request_run _ _ _ text _ _ _ H).
  - intros -> ->. now rewrite (admin_request_run _ _ _ false _ _ _ H).
  - intros -> v Hv. rewrite (admin_request_run _ _ _ false _ _ _ H). cbn.
    destruct body as [|c rest]; [rewrite json_loads_empty in Hv; discriminate|].
    cbn. now rewrite Hv.
Qed.

End AdminRequest.

Module AdminExamples.

Import Sample SampleJson.

(** C2 fails as stated: in text mode, which [reset_timing] uses, a 200
    response with an empty body yields the empty string, not [None], and a
    JSON body comes back as it is, not decoded. *)
Lemma admin_request_text_mode_empty_body :
  next_answer ok_empty (admin_call (self ok_empty) "POST" "/status/reset" None)
    = Responds 200 "" /\
  fst (admin_request "POST" "/status/reset" None true ok_empty) = Ok (JStr "") /\
  JStr "" <> JNull /\
  json_loads "{}" = Some (JDict []) /\
  fst (admin_request "GET" "/status" None true (state_of (always (Responds 200 "{}"))))
    = Ok (JStr "{}").
Proof. repeat split; discriminate. Qed.

Lemma admin_request_default_mode_witness :
  (forall text, fst (admin_request "GET" "/status" None text not_found) =
                Raise (Exception "Unexpected HTTP response: 404")) /\
  fst (admin_request "GET" "/status" None false ok_empty) = Ok JNull /\
  fst (admin_request "GET" "/status" None false ok_json)
    = Ok (JDict [("timing", JNull)]).
Proof.
  split; [|split].
  - exact (proj1 (admin_request_default_mode "GET" "/status" None not_found
                    404 "Not Found" eq_refl) eq_refl).
  - exact (proj1 (proj2 (admin_request_default_mode "GET" "/status" None ok_empty
                           200 "" eq_refl)) eq_refl eq_refl).
  - exact (proj1 (proj2 (proj2 (admin_request_default_mode "GET" "/status" None
                                  ok_json 200 _ eq_refl)))
             eq_refl (JDict [("timing", JNull)]) eq_refl).
Defined.

(** C3 fails as stated: with the connection refused there is no response,
    hence no status outside 200..299 and no body to decode, and the call
    raises all the same, the exception of the client session. *)
Lemma admin_request_raises_without_response :
  next_answer never_started (admin_call (self never_started) "GET" "/status" None)
    = Fails (ClientError "Cannot connect to host") /\
  fst (admin_request "GET" "/status" None false never_started)
    = Raise (ClientError "Cannot connect to host").
Proof. split; reflexivity. Qed.

Lemma admin_request_raises_iff_witness :
  fst (admin_request "GET" "/status" None false never_started)
    = Raise (ClientError "Cannot connect to host") /\
  fst (admin_request "GET" "/status" None false not_found)
    = Raise (Exception "Unexpected HTTP response: 404") /\
  fst (admin_request "GET" "/status" None false
         (state_of (always (Responds 200 "<html>"))))
    = Raise (Exception "Error decoding JSON: <html>").
Proof.
  split; [|split].
  - exact (proj1 (proj2 (admin_request_raises_iff "GET" "/status" None false
                           never_started))
             (ClientError "Cannot connect to host") eq_refl).
  - apply (proj1 (proj2 (proj2 (admin_request_raises_iff "GET" "/status" None false
                                  not_found))) 404 "Not Found" eq_refl).
    right. lia.
  - apply (proj2 (proj2 (proj2 (admin_request_raises_iff "GET" "/status" None false
                                  (state_of (always (Responds 200 "<html>"))))))
             200 "<html>" eq_refl);
      [lia | reflexivity | discriminate | reflexivity].
Defined.

End AdminExamples.

(** ** detect_process *)

Lemma after_polls_0 (s : State) : after_polls 0 s = s.
Proof. apply after_events_nil. Qed.

Lemma after_polls_S (k : nat) (s : State) :
  after_polls k (after_polls 1 s) = after_polls (S k) s.
Proof.
  unfold after_polls. rewrite after_events_compose.
  unfold poll_events. reflexivity.
Qed.

Lemma poll_after_polls (s : State) (i : nat) :
  poll (after_polls 1 s) i = poll s (S i).
Proof.
  unfold poll, after_polls, after_events. simpl.
  now rewrite Nat.add_1_r, Nat.add_succ_r.
Qed.

(** One round of the loop. *)
Lemma detect_loop_round (n : nat) (text : option string) (s : State) :
  detect_loop (S n) text s =
  match poll s 0 with
  | Fails e =>
      if is_ClientError e then detect_loop n None (after_polls 1 s)
      else (Raise e, after_polls 1 s)
  | Responds status body =>
      if status =? 200 then (Ok (Some body), after_polls 1 s)
      else detect_loop n text (after_polls 1 s)
  end.
Proof.
  assert (E : {| self := self s;
                 world := count_request
                   (record (EvRequest (probe (self s)))
                      (record (EvSleep 2) (world s))) |} = after_polls 1 s).
  { unfold after_polls, after_events, count_request, record, poll_events. simpl.
    now rewrite Nat.add_1_r, <- app_assoc. }
  unfold poll. rewrite Nat.add_0_r.
  change (swagger_request (self s)) with (probe (self s)).
  cbn [detect_loop]. unfold_monad. cbn [self world record http_client requests_made].
  destruct (http_client (world s) (requests_made (world s)) (probe (self s)))
    as [e | status body].
  - destruct (is_ClientError e); rewrite E; reflexivity.
  - cbn [fst snd]. destruct (status =? 200); rewrite E; reflexivity.
Qed.

(** The loop makes at most [n] rounds, each a two-second sleep followed by
    the GET of the swagger document, and touches nothing else. *)
Lemma detect_loop_rounds (n : nat) :
  forall text s, exists k, (k <= n)%nat /\ snd (detect_loop n text s) = after_polls k s.
Proof.
  induction n as [|n IH]; intros text s.
  - exists 0%nat. split; [lia|]. now rewrite after_polls_0.
  - rewrite detect_loop_round.
    destruct (poll s 0) as [e | status body].
    + destruct (is_ClientError e).
      * destruct (IH None (after_polls 1 s)) as [k [Hk E]].
        exists (S k). split; [lia|]. now rewrite E, after_polls_S.
      * exists 1%nat. split; [lia|reflexivity].
    + destruct (status =? 200).
      * exists 1%nat. split; [lia|reflexivity].
      * destruct (IH text (after_polls 1 s)) as [k [Hk E]].
        exists (S k). split; [lia|]. now rewrite E, after_polls_S.
Qed.


(** The first 200 answer, at round [j], ends the loop with its body. *)
Lemma detect_loop_first_200 (n : nat) :
  forall s j text body,
  (j < n)%nat ->
  (forall i, (i < j)%nat -> keeps_polling (poll s i) = true) ->
  poll s j = Responds 200 body ->
  detect_loop n text s = (Ok (Some body), after_polls (S j) s).
Proof.
  induction n as [|n IH]; intros s j text body Hj Hbefore H200; [lia|].
  rewrite detect_loop_round.
  destruct j as [|j].
  - now rewrite H200.
  - pose proof (Hbefore 0%nat ltac:(lia)) as H0.
    assert (Hrest : forall i, (i < j)%nat ->
                      keeps_polling (poll (after_polls 1 s) i) = true).
    { intros i Hi. rewrite poll_after_polls. apply Hbefore. lia. }
    assert (Hj200 : poll (after_polls 1 s) j = Responds 200 body)
      by now rewrite poll_after_polls.
    destruct (poll s 0) as [e | status body0]; cbn in H0.
    + rewrite H0.
      rewrite (IH (after_polls 1 s) j None body ltac:(lia) Hrest Hj200).
      now rewrite after_polls_S.
    + apply negb_true_iff in H0. rewrite H0.
      rewrite (IH (after_polls 1 s) j text body ltac:(lia) Hrest Hj200).
      now rewrite after_polls_S.
Qed.

Lemma detect_process_run (s : State) :
  detect_process s =
  match detect_loop 10 None s with
  | (Ok None, s') => (Raise timed_out, s')
  | (Ok (Some t), s') =>
      if negb (PyStr.truthy t) then (Raise timed_out, s')
      else if negb (PyStr.contains "Aries Cloud Agent" t)
           then (Raise unexpected_response, s')
           else (Ok tt, s')
  | (Raise e, s') => (Raise e, s')
  end.
Proof.
  unfold detect_process, bind.
  destruct (detect_loop 10 None s) as [[[t|]|e] s']; try reflexivity.
  destruct (negb (PyStr.truthy t)); [reflexivity|].
  destruct (negb (PyStr.contains "Aries Cloud Agent" t)); reflexivity.
Qed.




(** C9. When the first 200 answer, at poll [j], has a body that is not
    empty and lacks the marker, [detect_process] makes no further poll and
    raises the error [Unexpected response from agent process], which is not
    the timeout error.  When that body is empty it raises the timeout
    error, [Timed out waiting for agent process to start]. *)
Theorem detect_process_first_200 (s : State) (j : nat) (body : string) :
  (j < 10)%nat ->
  (forall i, (i < j)%nat -> keeps_polling (poll s i) = true) ->
  poll s j = Responds 200 body ->
  (body <> "" -> PyStr.contains "Aries Cloud Agent" body = false ->
   detect_process s
     = (Raise (Exception "Unexpected response from agent process"),
        after_polls (S j) s)) /\
  (body = "" ->
   detect_process s
     = (Raise (Exception "Timed out waiting for agent process to start"),
        after_polls (S j) s)) /\
  Exception "Unexpected response from agent process"
    <> Exception "Timed out waiting for agent process to start".
Proof.
  intros Hj Hbefore H200.
  rewrite detect_process_run, (detect_loop_first_200 10 s j None body Hj Hbefore H200).
  split; [|split].
  - intros Hne Hmarker. rewrite Hmarker.
    destruct body; [congruence|reflexivity].
  - intros ->. reflexivity.
  - discriminate.
Qed.

Module ProbeExamples.

Import Sample.



Lemma detect_process_first_200_witness :
  detect_process other_service
    = (Raise (Exception "Unexpected response from agent process"),
       after_polls 1 other_service) /\
  detect_process empty_answer
    = (Raise (Exception "Timed out waiting for agent process to start"),
       after_polls 2 empty_answer).
Proof.
  split.
  - apply (proj1 (detect_process_first_200 other_service 0 "<html>It works!</html>"
                    ltac:(lia) ltac:(intros i Hi; lia) eq_refl));
      [discriminate | reflexivity].
  - apply (proj1 (proj2 (detect_process_first_200 empty_answer 1 ""
                           ltac:(lia)
                           ltac:(intros [|i] Hi; [reflexivity | lia])
                           eq_refl))).
    reflexivity.
Defined.

End ProbeExamples.

(** ** _terminate *)

(** The run of [_terminate] on a process that is still running. *)
Lemma _terminate_run (s : State) (p : Popen) :
  proc (self s) = Some p ->
  returncode p = None ->
  _terminate s =
  match exits_within p (1 # 2) with
  | Some code =>
      (Ok tt,
       {| self := set_proc (Some (exited p code)) (self s);
          world := world (after_events 0
                     [EvSigterm; EvWait (1 # 2);
                      log_line (self s)
                        [JStr ("Exited with return code " ++ PyStr.of_int code)]] s) |})
  | None =>
      (Raise (Exception not_in_time),
       after_events 0 [EvSigterm; EvWait (1 # 2);
                       log_line (self s) [JStr not_in_time]] s)
  end.
Proof.
  intros Hproc Hpoll.
  unfold _terminate. unfold bind at 1. unfold get_self. cbv beta iota.
  rewrite Hproc, Hpoll.
  unfold log, handle_output. unfold_monad. cbn.
  destruct (exits_within p (1 # 2)) as [code|]; cbn;
    unfold after_events, record, log_line; cbn;
    rewrite Nat.add_0_r, <- !app_assoc; reflexivity.
Qed.

(** C6. When the spawned process is still running, [_terminate] signals it
    and waits for it with a timeout of half a second, all within the call.
    If the process is not gone by then, the failure is logged and raised as
    an exception, which [terminate] passes on; if it is, the call returns
    and the handle holds the return code. *)
Theorem terminate_waits_half_a_second (s : State) (p : Popen) :
  proc (self s) = Some p ->
  returncode p = None ->
  (exits_within p (1 # 2) = None ->
     fst (_terminate s) = Raise (Exception not_in_time) /\
     fst (terminate s) = Raise (Exception not_in_time) /\
     trace (world (snd (_terminate s)))
       = (trace (world s)
            ++ [EvSigterm; EvWait (1 # 2); log_line (self s) [JStr not_in_time]])%list) /\
  (forall code, exits_within p (1 # 2) = Some code ->
     fst (_terminate s) = Ok tt /\
     proc (self (snd (_terminate s))) = Some (exited p code) /\
     trace (world (snd (_terminate s)))
       = (trace (world s)
            ++ [EvSigterm; EvWait (1 # 2);
                log_line (self s)
                  [JStr ("Exited with return code " ++ PyStr.of_int code)]])%list).
Proof.
  intros Hproc Hpoll. split.
  - intros Hwait.
    assert (E : terminate s = (Raise (Exception not_in_time), snd (_terminate s))).
    { unfold terminate. unfold bind at 1. unfold get_self. cbv beta iota.
      rewrite Hproc. unfold bind at 1.
      rewrite (_terminate_run s p Hproc Hpoll), Hwait. reflexivity. }
    rewrite E, (_terminate_run s p Hproc Hpoll), Hwait. repeat split.
  - intros code Hwait.
    rewrite (_terminate_run s p Hproc Hpoll), Hwait. repeat split.
Qed.

Module ProcessExamples.

Import Sample.

Lemma terminate_waits_half_a_second_witness :
  fst (_terminate with_stuck_child) = Raise (Exception not_in_time) /\
  fst (terminate with_stuck_child) = Raise (Exception not_in_time) /\
  trace (world (snd (_terminate with_stuck_child)))
    = [EvSigterm; EvWait (1 # 2); log_line alice [JStr not_in_time]].
Proof.
  exact (proj1 (terminate_waits_half_a_second with_stuck_child stuck eq_refl eq_refl)
           eq_refl).
Defined.

End ProcessExamples.

(** ** Webhooks *)

Section Webhooks.

Context {decoder : JsonDecoder}.
Variable handlers : string -> option (json -> M unit).

Lemma emit_run (ev : event) (s : State) :
  emit ev s = (Ok tt, after_events 0 [ev] s).
Proof.
  unfold emit, after_events, record. cbn. now rewrite Nat.add_0_r.
Qed.

Lemma handle_webhook_no_method (topic : string) (payload : json) (s : State) :
  getattr_handle handlers ("handle_" ++ topic) = None ->
  handle_webhook handlers topic payload s = (Ok tt, s).
Proof.
  intros H. unfold handle_webhook. rewrite H.
  now destruct (negb (topic =? "webhook")%string).
Qed.

(** C8. For the topic [webhook], [handle_webhook] returns at once, calls
    no method and leaves the state as it is, whatever [handle_*] methods
    the class has.  For a topic with no [handle_<topic>] attribute it
    returns likewise, without an error. *)
Theorem handle_webhook_skips (payload : json) (s : State) :
  handle_webhook handlers "webhook" payload s = (Ok tt, s) /\
  (forall topic,
     getattr_handle handlers ("handle_" ++ topic) = None ->
     handle_webhook handlers topic payload s = (Ok tt, s)).
Proof.
  split; [reflexivity|].
  intros topic H. now apply handle_webhook_no_method.
Qed.

(** C4, as amended.  A body that is not JSON makes [_receive_webhook]
    raise.  For a body that decodes to [payload]: when the class has a
    coroutine [handle_webhook] of its own, the call of it with a topic and a
    payload raises a [TypeError] and nothing else happens.  When it has
    none: with the topic [webhook], or with no [handle_<topic>] attribute,
    no method is called and the answer is 200 with an empty text; with a
    coroutine [handle_<topic>] of the subclass and another topic, that
    coroutine runs once, on [payload], and when it returns the answer is
    200 with an empty text. *)
Theorem receive_webhook_dispatch (topic body : string) (s : State) :
  (json_loads body = None ->
     _receive_webhook handlers topic body s = (Raise (JSONDecodeError body), s)) /\
  (forall payload, json_loads body = Some payload ->
     (handlers "handle_webhook" <> None ->
        exists msg,
          _receive_webhook handlers topic body s = (Raise (TypeError msg), s)) /\
     (handlers "handle_webhook" = None ->
        (topic = "webhook" \/ getattr_handle handlers ("handle_" ++ topic) = None ->
           _receive_webhook handlers topic body s
           = (Ok {| resp_status := 200; resp_text := "" |}, s)) /\
        (forall method,
           topic <> "webhook" ->
           handlers ("handle_" ++ topic) = Some method ->
           _receive_webhook handlers topic body s =
           match method payload
                   (after_events 0 [EvHandler ("handle_" ++ topic) payload] s) with
           | (Ok _, s') => (Ok {| resp_status := 200; resp_text := "" |}, s')
           | (Raise e, s') => (Raise e, s')
           end))).
Proof.
  split.
  - intros H. unfold _receive_webhook, bind, raise. now rewrite H.
  - intros payload H. split.
    + intros Hown. unfold _receive_webhook, bind, ret, raise. rewrite H.
      destruct (handlers "handle_webhook"); [|congruence].
      eexists. reflexivity.
    + intros Hbase. split.
      * intros Hskip. unfold _receive_webhook, bind, ret. rewrite H, Hbase.
        assert (E : handle_webhook handlers topic payload s = (Ok tt, s)).
        { destruct Hskip as [-> | Hnone]; [reflexivity|].
          now apply handle_webhook_no_method. }
        now rewrite E.
      * intros method Htopic Hmethod.
        apply String.eqb_neq in Htopic.
        unfold _receive_webhook, handle_webhook, getattr_handle, await_method,
          bind, ret.
        rewrite H, Hbase, Htopic, Hmethod. cbn [negb]. rewrite emit_run.
        destruct (method payload _) as [[[]|e] s']; reflexivity.
Qed.

End Webhooks.

Module WebhookExamples.

Import Sample SampleJson.

(** C4 fails as stated.  With a subclass that handles the topic
    [connections] only: a POST for the topic [issue_credential], or for the
    topic [webhook], calls no handler at all; a body that is not JSON, and
    the topic [output], whose handler is the plain method [handle_output],
    end in an exception, not in a response.  With a subclass that has a
    coroutine [handle_webhook], a POST for [connections] ends in an
    exception before any handler runs. *)
Lemma receive_webhook_topic_webhook :
  json_loads active = Some active_payload /\
  topic_handlers "handle_webhook" = None /\
  handler_calls
    (trace (world (snd (_receive_webhook topic_handlers "issue_credential" active idle))))
    = [] /\
  handler_calls
    (trace (world (snd (_receive_webhook topic_handlers "webhook" active idle)))) = [] /\
  fst (_receive_webhook topic_handlers "connections" "state=active" idle)
    = Raise (JSONDecodeError "state=active") /\
  handler_calls
    (trace (world (snd (_receive_webhook topic_handlers "output" active idle))))
    = [("handle_output", active_payload)] /\
  fst (_receive_webhook topic_handlers "output" active idle)
    = Raise (TypeError "object NoneType can't be used in 'await' expression") /\
  (exists method, handlers "handle_webhook" = Some method) /\
  raised (fst (_receive_webhook handlers "connections" active idle)) = true /\
  handler_calls
    (trace (world (snd (_receive_webhook handlers "connections" active idle)))) = [].
Proof.
  split; [reflexivity|]. split; [reflexivity|].
  do 5 (split; [reflexivity|]).
  split; [eexists; reflexivity|]. split; reflexivity.
Qed.

Lemma receive_webhook_dispatch_witness :
  _receive_webhook topic_handlers "connections" "state=active" idle
    = (Raise (JSONDecodeError "state=active"), idle) /\
  _receive_webhook topic_handlers "issue_credential" active idle
    = (Ok {| resp_status := 200; resp_text := "" |}, idle) /\
  _receive_webhook topic_handlers "webhook" active idle
    = (Ok {| resp_status := 200; resp_text := "" |}, idle) /\
  _receive_webhook topic_handlers "connections" active idle
    = (Ok {| resp_status := 200; resp_text := "" |},
       after_events 0 [EvHandler "handle_connections" active_payload;
                       log_line alice [JStr "Connection:"; active_payload]] idle) /\
  (exists msg,
     _receive_webhook handlers "connections" active idle = (Raise (TypeError msg), idle)).
Proof.
  split; [|split; [|split; [|split]]].
  - exact (proj1 (receive_webhook_dispatch (decoder := SampleJson.decoder)
                    topic_handlers "connections" "state=active" idle) eq_refl).
  - apply (proj2 (proj2 (receive_webhook_dispatch (decoder := SampleJson.decoder)
                           topic_handlers "issue_credential" active idle)
                    active_payload ltac:(reflexivity)) ltac:(reflexivity)).
    right. reflexivity.
  - apply (proj2 (proj2 (receive_webhook_dispatch (decoder := SampleJson.decoder)
                           topic_handlers "webhook" active idle)
                    active_payload ltac:(reflexivity)) ltac:(reflexivity)).
    left. reflexivity.
  - rewrite (proj2 (proj2 (proj2 (receive_webhook_dispatch
                                    (decoder := SampleJson.decoder)
                                    topic_handlers "connections" active idle)
                             active_payload ltac:(reflexivity))
                      ltac:(reflexivity))
               (logging "Connection:") ltac:(discriminate) ltac:(reflexivity)).
    reflexivity.
  - apply (proj1 (proj2 (receive_webhook_dispatch (decoder := SampleJson.decoder)
                           handlers "connections" active idle)
                    active_payload ltac:(reflexivity))).
    discriminate.
Defined.

Lemma handle_webhook_skips_witness :
  handle_webhook handlers "webhook" active_payload idle = (Ok tt, idle) /\
  handle_webhook handlers "issue_credential" active_payload idle = (Ok tt, idle).
Proof.
  split.
  - exact (proj1 (handle_webhook_skips handlers active_payload idle)).
  - exact (proj2 (handle_webhook_skips handlers active_payload idle)
             "issue_credential" eq_refl).
Defined.

End WebhookExamples.

(** ** The URLs of the agent *)

Lemma urls_kept_refl (s : State) : urls_kept s s.
Proof. split; reflexivity. Qed.

Lemma urls_kept_trans (s1 s2 s3 : State) :
  urls_kept s1 s2 -> urls_kept s2 s3 -> urls_kept s1 s3.
Proof. intros [E1 A1] [E2 A2]. split; congruence. Qed.

Section KeepsUrls.

Context {A B : Type}.

Lemma keeps_ret (a : A) : keeps_urls (ret a).
Proof. intros s. apply urls_kept_refl. Qed.

Lemma keeps_raise (e : exn) : keeps_urls (@raise A e).
Proof. intros s. apply urls_kept_refl. Qed.

Lemma keeps_bind (m : M A) (k : A -> M B) :
  keeps_urls m -> (forall a, keeps_urls (k a)) -> keeps_urls (bind m k).
Proof.
  intros Hm Hk s. unfold bind. specialize (Hm s).
  destruct (m s) as [[a|e] s']; cbn in *; [|exact Hm].
  eapply urls_kept_trans; [exact Hm | apply Hk].
Qed.

Lemma keeps_try_except (body : M A) (catches : exn -> bool) (handler : exn -> M A) :
  keeps_urls body -> (forall e, keeps_urls (handler e)) ->
  keeps_urls (try_except body catches handler).
Proof.
  intros Hb Hh s. unfold try_except. specialize (Hb s).
  destruct (body s) as [[a|e] s']; cbn in *; [exact Hb|].
  destruct (catches e); cbn; [|exact Hb].
  eapply urls_kept_trans; [exact Hb | apply Hh].
Qed.

Lemma keeps_discard (m : M A) : keeps_urls m -> keeps_urls (discard m).
Proof.
  intros Hm s. unfold discard, bind, ret. specialize (Hm s).
  destruct (m s) as [[a|e] s']; exact Hm.
Qed.

End KeepsUrls.

Lemma keeps_get_self : keeps_urls get_self.
Proof. intros s. apply urls_kept_refl. Qed.

Lemma keeps_get_world : keeps_urls get_world.
Proof. intros s. apply urls_kept_refl. Qed.

Lemma keeps_emit (ev : event) : keeps_urls (emit ev).
Proof. intros s. split; reflexivity. Qed.

Lemma keeps_sleep (t : Q) : keeps_urls (sleep t).
Proof. apply keeps_emit. Qed.

Lemma keeps_client_request (r : request) : keeps_urls (client_request r).
Proof.
  intros s. unfold client_request.
  destruct (http_client _ _ _); split; reflexivity.
Qed.

(** The attributes assigned after construction are [did], [proc] and the
    three webhook attributes, never the two URLs. *)
Lemma keeps_set_did (v : json) : keeps_urls (modify_self (set_did v)).
Proof. intros s. split; reflexivity. Qed.

Lemma keeps_set_proc (v : option Popen) : keeps_urls (modify_self (set_proc v)).
Proof. intros s. split; reflexivity. Qed.

Lemma keeps_set_webhook_port (v : option Z) :
  keeps_urls (modify_self (set_webhook_port v)).
Proof. intros s. split; reflexivity. Qed.

Lemma keeps_set_webhook_url (v : option string) :
  keeps_urls (modify_self (set_webhook_url v)).
Proof. intros s. split; reflexivity. Qed.

Lemma keeps_set_webhook_site (v : option TCPSite) :
  keeps_urls (modify_self (set_webhook_site v)).
Proof. intros s. split; reflexivity. Qed.

Create HintDb frame.

#[local] Hint Resolve keeps_ret keeps_raise keeps_get_self keeps_get_world
  keeps_emit keeps_sleep keeps_client_request keeps_set_did keeps_set_proc
  keeps_set_webhook_port keeps_set_webhook_url keeps_set_webhook_site : frame.

(** Walks through binds and case distinctions down to the primitives. *)
Ltac frame :=
  repeat first
    [ progress auto with frame
    | apply keeps_bind; [|intro]
    | apply keeps_discard
    | apply keeps_try_except; [|intro]
    | match goal with
      | |- keeps_urls (match ?x with _ => _ end) => destruct x
      | |- keeps_urls (if ?b then _ else _) => destruct b
      end ].

Section Frame.

Context {decoder : JsonDecoder}.
Variable json_dumps : json -> string.
Variable environ : dict string.
Variable handlers : string -> option (json -> M unit).
Variable py_str : json -> string.

Lemma keeps_handle_output (output : list json) (source : option string) :
  keeps_urls (handle_output output source).
Proof. unfold handle_output. frame. Qed.

Lemma keeps_log (msg : string) : keeps_urls (log msg).
Proof. apply keeps_handle_output. Qed.

#[local] Hint Resolve keeps_handle_output keeps_log : frame.

Lemma keeps_log_json (data : json) (label : option string) :
  keeps_urls (log_json data label).
Proof. unfold log_json. frame. Qed.

Lemma keeps_log_timer (label : string) (show : bool) :
  keeps_urls (log_timer label show).
Proof. unfold log_timer. frame. Qed.

Lemma keeps_register_did (ledger_url alias : option string) :
  keeps_urls (register_did py_str ledger_url alias).
Proof. unfold register_did. frame. Qed.

Lemma keeps_detect_loop (n : nat) : forall text, keeps_urls (detect_loop n text).
Proof.
  induction n as [|n IH]; intros text; cbn [detect_loop]; frame.
Qed.

Lemma keeps_detect_process : keeps_urls detect_process.
Proof. unfold detect_process. pose proof keeps_detect_loop. frame. Qed.

Lemma keeps__process (args : list string) (env : dict string) :
  keeps_urls (_process args env).
Proof. unfold _process. frame. Qed.

#[local] Hint Resolve keeps_detect_process keeps__process : frame.

Lemma keeps_start_process (python_path bin_path : option string) (wait : bool) :
  keeps_urls (start_process json_dumps environ python_path bin_path wait).
Proof. unfold start_process. frame. Qed.

Lemma keeps__terminate : keeps_urls _terminate.
Proof. unfold _terminate. frame. Qed.

#[local] Hint Resolve keeps__terminate : frame.

Lemma keeps_terminate : keeps_urls terminate.
Proof. unfold terminate. frame. Qed.

Lemma keeps_listen_webhooks (port : Z) : keeps_urls (listen_webhooks port).
Proof. unfold listen_webhooks. frame. Qed.

Lemma keeps_admin_request (method path : string) (data : option json) (text : bool) :
  keeps_urls (admin_request method path data text).
Proof. unfold admin_request. frame. Qed.

#[local] Hint Resolve keeps_admin_request : frame.

Lemma keeps_fetch_timing : keeps_urls fetch_timing.
Proof. unfold fetch_timing, admin_GET. frame. Qed.

Lemma keeps_reset_timing : keeps_urls reset_timing.
Proof. unfold reset_timing, admin_POST. frame. Qed.

(** The coroutines of the subclass are outside this file; they are taken
    to leave the two URLs alone. *)
Hypothesis handlers_keep :
  forall name body payload, handlers name = Some body -> keeps_urls (body payload).

Lemma keeps_handle_webhook (topic : string) (payload : json) :
  keeps_urls (handle_webhook handlers topic payload).
Proof.
  unfold handle_webhook, getattr_handle, await_method.
  destruct (negb (topic =? "webhook")%string); [|frame].
  destruct (handlers ("handle_" ++ topic)) as [body|] eqn:E.
  - pose proof (handlers_keep _ body payload E). cbn. frame.
  - destruct (_ =? "handle_output")%string; [cbn; frame|].
    destruct (_ =? "handle_webhook")%string; cbn; frame.
Qed.

Lemma keeps__receive_webhook (topic body : string) :
  keeps_urls (_receive_webhook handlers topic body).
Proof.
  unfold _receive_webhook. pose proof keeps_handle_webhook.
  destruct (handlers "handle_webhook"); frame.
Qed.

Lemma keeps_run_call (c : method_call) :
  keeps_urls (run_call json_dumps environ handlers py_str c).
Proof.
  destruct c; cbn [run_call]; unfold admin_GET, admin_POST;
    auto using keeps_log_json, keeps_log_timer, keeps_register_did, keeps_start_process, keeps_terminate,
      keeps_listen_webhooks, keeps__receive_webhook, keeps_handle_webhook,
      keeps_fetch_timing, keeps_reset_timing, keeps_discard with frame.
Qed.

Lemma keeps_run_calls (cs : list method_call) :
  forall s, urls_kept s (run_calls json_dumps environ handlers py_str cs s).
Proof.
  induction cs as [|c cs IH]; intros s; cbn [run_calls].
  - apply urls_kept_refl.
  - eapply urls_kept_trans; [apply keeps_run_call | apply IH].
Qed.

End Frame.

(** C7, as amended.  [endpoint] and [admin_url] are derived from the
    external host and the two ports by the constructor, and no sequence of
    method calls assigns them again, the coroutines of the subclass being
    taken not to.  [webhook_url] is unset by the constructor; every call of
    [listen_webhooks] derives it from the external host and the port it is
    given. *)
Theorem urls_fixed_by_constructor {decoder : JsonDecoder}
  (json_dumps : json -> string) (environ : dict string)
  (handlers : string -> option (json -> M unit)) (py_str : json -> string)
  (name : string) (port admin : Z)
  (internal external genesis label_ color_ prefix_ : option string)
  (timing_ : bool) (postgres_ : option bool) (extra : option (list (list string)))
  (kwargs : dict string) (rand : Z) (w : World) (calls : list method_call) :
  (forall attr body payload,
     handlers attr = Some body -> keeps_urls (body payload)) ->
  let a := __init__ environ name port admin internal external genesis label_ color_
             prefix_ timing_ postgres_ extra kwargs rand in
  let s' := run_calls json_dumps environ handlers py_str calls
              {| self := a; world := w |} in
  endpoint a = "http://" ++ external_host a ++ ":" ++ PyStr.of_int port /\
  admin_url a = "http://" ++ external_host a ++ ":" ++ PyStr.of_int admin /\
  webhook_url a = None /\
  endpoint (self s') = endpoint a /\
  admin_url (self s') = admin_url a /\
  (forall p s,
     webhook_url (self (snd (listen_webhooks p s)))
       = Some ("http://" ++ external_host (self s) ++ ":" ++ PyStr.of_int p
               ++ "/webhooks")).
Proof.
  intros Hkeep a s'.
  destruct (keeps_run_calls json_dumps environ handlers py_str Hkeep calls
              {| self := a; world := w |}) as [He Ha].
  repeat split; try assumption.
  intros p s. unfold listen_webhooks. unfold_monad. cbn.
  destruct (site_start (world s) p); reflexivity.
Qed.

Module UrlExamples.

Import Sample SampleJson.

(** C7 fails as stated: [webhook_url] is not set by the constructor, and
    each call of [listen_webhooks] assigns it anew. *)
Lemma listen_webhooks_assigns_webhook_url :
  webhook_url alice = None /\
  webhook_url (self (snd (listen_webhooks 8022 idle)))
    = Some "http://localhost:8022/webhooks" /\
  webhook_url (self (snd (listen_webhooks 8030 (snd (listen_webhooks 8022 idle)))))
    = Some "http://localhost:8030/webhooks".
Proof. repeat split. Qed.

Lemma logging_keeps_urls (attr : string) (body : json -> M unit) (payload : json) :
  handlers attr = Some body -> keeps_urls (body payload).
Proof.
  unfold handlers.
  destruct (attr =? "handle_connections")%string;
    [|destruct (attr =? "handle_webhook")%string];
    intros E; inversion E; apply keeps_handle_output.
Qed.

Lemma urls_fixed_by_constructor_witness :
  endpoint (self after_session) = "http://localhost:8020" /\
  admin_url (self after_session) = "http://localhost:8021" /\
  webhook_url (self after_session) = Some "http://localhost:8022/webhooks".
Proof.
  pose proof (urls_fixed_by_constructor dumps [] handlers dumps
                "Alice" 8020 8021 None None None None None None false None None []
                123456 ready session logging_keeps_urls) as [_ [_ [_ [He [Ha _]]]]].
  split; [exact He | split; [exact Ha | reflexivity]].
Defined.

End UrlExamples.

(** ** The timing report *)

(** *** Sorting *)

Section SortFacts.

Context {A K : Type}.
Variable key : A -> K.
Variable lt : K -> K -> bool.

(** The keys on which [lt] behaves as a strict order with comparable
    elements. *)
Variable ordered : K -> Prop.

Hypothesis lt_asym :
  forall a b, ordered a -> ordered b -> lt a b = true -> lt b a = false.

Hypothesis lt_cotrans :
  forall a b c, ordered a -> ordered b -> ordered c ->
  lt a b = false -> lt b c = false -> lt a c = false.

Local Abbreviation ascending := (ascending key lt).
Local Abbreviation descending := (descending key lt).
Local Abbreviation all_ordered := (all_ordered key ordered).

Lemma insert_sorted_perm (x : A) (l : list A) :
  Permutation (insert_sorted key lt x l) (x :: l).
Proof.
  induction l as [|y l IH]; cbn; [reflexivity|].
  destruct (lt (key x) (key y)); [reflexivity|].
  rewrite IH. apply perm_swap.
Qed.

Lemma fold_insert_perm (l : list A) :
  forall acc, Permutation (fold_left (fun acc x => insert_sorted key lt x acc) l acc)
                (rev l ++ acc).
Proof.
  induction l as [|x l IH]; intros acc; cbn; [reflexivity|].
  rewrite IH, insert_sorted_perm, <- app_assoc. reflexivity.
Qed.

Lemma list_sort_perm (l : list A) : Permutation (list_sort key lt l) l.
Proof.
  unfold list_sort. rewrite fold_insert_perm, app_nil_r.
  symmetry. apply Permutation_rev.
Qed.

Lemma list_sort_reverse_perm (l : list A) :
  Permutation (list_sort_reverse key lt l) l.
Proof.
  unfold list_sort_reverse.
  rewrite <- Permutation_rev, list_sort_perm. symmetry. apply Permutation_rev.
Qed.

Lemma insert_sorted_ascending (x : A) (l : list A) :
  ordered (key x) -> all_ordered l ->
  StronglySorted ascending l -> StronglySorted ascending (insert_sorted key lt x l).
Proof.
  intros Hx. induction l as [|y l IH]; intros Hl Hs; cbn.
  - constructor; constructor.
  - inversion Hl as [|? ? Hy Hl']; subst.
    apply StronglySorted_inv in Hs. destruct Hs as [Hs Hy_le].
    destruct (lt (key x) (key y)) eqn:E.
    + constructor; [constructor; assumption|].
      constructor; [now apply lt_asym|].
      rewrite Forall_forall in *. intros z Hz.
      unfold ascending in *.
      apply (lt_cotrans (key z) (key y) (key x)); auto.
    + constructor; [now apply IH|].
      rewrite Forall_forall in *. intros z Hz.
      apply (Permutation_in _ (insert_sorted_perm x l)) in Hz.
      destruct Hz as [<- | Hz]; [exact E | now apply Hy_le].
Qed.

Lemma fold_insert_ascending (l : list A) :
  forall acc, all_ordered l -> all_ordered acc -> StronglySorted ascending acc ->
  StronglySorted ascending (fold_left (fun acc x => insert_sorted key lt x acc) l acc).
Proof.
  induction l as [|x l IH]; intros acc Hl Hacc Hs; cbn; [exact Hs|].
  inversion Hl; subst. apply IH; [assumption | |now apply insert_sorted_ascending].
  eapply Permutation_Forall; [symmetry; apply insert_sorted_perm|].
  now constructor.
Qed.

Lemma list_sort_ascending (l : list A) :
  all_ordered l -> StronglySorted ascending (list_sort key lt l).
Proof.
  intros Hl. apply fold_insert_ascending; [exact Hl | constructor | constructor].
Qed.

Lemma StronglySorted_snoc (R : A -> A -> Prop) (l : list A) (x : A) :
  StronglySorted R l -> Forall (fun y => R y x) l -> StronglySorted R (l ++ [x]).
Proof.
  induction l as [|y l IH]; intros Hs Hx; cbn.
  - constructor; constructor.
  - apply StronglySorted_inv in Hs. destruct Hs as [Hs Hy].
    inversion Hx; subst.
    constructor; [now apply IH|].
    apply Forall_app. split; [exact Hy | now constructor].
Qed.

Lemma StronglySorted_rev (R : A -> A -> Prop) (l : list A) :
  StronglySorted R l -> StronglySorted (fun a b => R b a) (rev l).
Proof.
  induction l as [|y l IH]; intros Hs; cbn; [constructor|].
  apply StronglySorted_inv in Hs. destruct Hs as [Hs Hy].
  apply StronglySorted_snoc; [now apply IH|].
  now apply Forall_rev.
Qed.

(** With [reverse=True] no element is followed by one with a greater key. *)
Lemma list_sort_reverse_descending (l : list A) :
  all_ordered l -> StronglySorted descending (list_sort_reverse key lt l).
Proof.
  intros Hl. unfold list_sort_reverse.
  apply (StronglySorted_rev ascending).
  apply list_sort_ascending. now apply Forall_rev.
Qed.

End SortFacts.

(** *** The order of floats *)

Lemma SFcompare_rank (x y : spec_float) :
  x <> S754_nan -> y <> S754_nan ->
  SFcompare x y = Some (lex_compare (float_rank x) (float_rank y)).
Proof.
  intros Hx Hy.
  destruct x as [sx | sx | | sx mx ex]; try congruence;
    destruct y as [sy | sy | | sy my ey]; try congruence;
    try destruct sx; try destruct sy; try reflexivity.
  cbn [SFcompare float_rank lex_compare].
    rewrite !Z.compare_opp. rewrite (Z.compare_antisym ex ey).
    change (Z.pos my ?= Z.pos mx) with (my ?= mx)%positive.
    rewrite (Pos.compare_antisym mx my).
    change (PosDef.Pos.compare_cont Eq mx my) with (mx ?= my)%positive.
    change (-1 ?= -1) with Eq.
    destruct (ex ?= ey); cbn; reflexivity.
Qed.

Lemma lex_compare_Lt_asym (a b : Z * Z * Z) :
  lex_compare a b = Lt -> lex_compare b a = Gt.
Proof.
  destruct a as [[a1 a2] a3], b as [[b1 b2] b3]. cbn.
  rewrite (Z.compare_antisym b1 a1), (Z.compare_antisym b2 a2),
    (Z.compare_antisym b3 a3).
  destruct (b1 ?= a1), (b2 ?= a2), (b3 ?= a3); cbn; congruence.
Qed.

Lemma lex_compare_not_Lt_trans (a b c : Z * Z * Z) :
  lex_compare a b <> Lt -> lex_compare b c <> Lt -> lex_compare a c <> Lt.
Proof.
  destruct a as [[a1 a2] a3], b as [[b1 b2] b3], c as [[c1 c2] c3]. cbn.
  destruct (Z.compare_spec a1 b1), (Z.compare_spec b1 c1), (Z.compare_spec a1 c1);
    try lia; try congruence; subst;
    destruct (Z.compare_spec a2 b2), (Z.compare_spec b2 c2), (Z.compare_spec a2 c2);
    try lia; try congruence; subst;
    destruct (Z.compare_spec a3 b3), (Z.compare_spec b3 c3), (Z.compare_spec a3 c3);
    try lia; congruence.
Qed.

Lemma SFltb_asym (a b : spec_float) :
  not_nan a -> not_nan b -> SFltb a b = true -> SFltb b a = false.
Proof.
  intros Ha Hb. unfold SFltb.
  rewrite (SFcompare_rank a b Ha Hb), (SFcompare_rank b a Hb Ha).
  destruct (lex_compare (float_rank a) (float_rank b)) eqn:E; try discriminate.
  now rewrite (lex_compare_Lt_asym _ _ E).
Qed.

Lemma SFltb_cotrans (a b c : spec_float) :
  not_nan a -> not_nan b -> not_nan c ->
  SFltb a b = false -> SFltb b c = false -> SFltb a c = false.
Proof.
  intros Ha Hb Hc. unfold SFltb.
  rewrite (SFcompare_rank a b Ha Hb), (SFcompare_rank b c Hb Hc),
    (SFcompare_rank a c Ha Hc).
  pose proof (lex_compare_not_Lt_trans (float_rank a) (float_rank b) (float_rank c)).
  destruct (lex_compare (float_rank a) (float_rank b)),
    (lex_compare (float_rank b) (float_rank c)),
    (lex_compare (float_rank a) (float_rank c));
    intros; try reflexivity; try discriminate; exfalso; apply H; congruence.
Qed.

(** Between floats other than NaN, not being smaller is being greater or
    equal. *)
Lemma SFltb_false_SFleb (a b : spec_float) :
  not_nan a -> not_nan b -> SFltb a b = false -> SFleb b a = true.
Proof.
  intros Ha Hb. unfold SFltb, SFleb.
  rewrite (SFcompare_rank a b Ha Hb), (SFcompare_rank b a Hb Ha).
  destruct (lex_compare (float_rank b) (float_rank a)) eqn:E; try reflexivity.
  assert (E' : lex_compare (float_rank a) (float_rank b) = Lt).
  { destruct (float_rank a) as [[a1 a2] a3], (float_rank b) as [[b1 b2] b3].
    cbn in *. revert E.
    rewrite (Z.compare_antisym a1 b1), (Z.compare_antisym a2 b2),
      (Z.compare_antisym a3 b3).
    destruct (a1 ?= b1), (a2 ?= b2), (a3 ?= b3); cbn; congruence. }
  rewrite E'. discriminate.
Qed.

(** *** Widths *)

Lemma length_append (s1 s2 : string) :
  String.length (s1 ++ s2) = (String.length s1 + String.length s2)%nat.
Proof. induction s1 as [|c s1 IH]; cbn; [reflexivity | now rewrite IH]. Qed.

Lemma length_replicate (n : nat) (c : ascii) :
  String.length (PyStr.replicate n c) = n.
Proof. induction n as [|n IH]; cbn; [reflexivity | now rewrite IH]. Qed.

Lemma length_spaces (n : nat) : String.length (PyStr.spaces n) = n.
Proof. apply length_replicate. Qed.

Lemma length_ljust (w : nat) (s : string) :
  String.length (PyStr.ljust w s) = Nat.max w (String.length s).
Proof. unfold PyStr.ljust. rewrite length_append, length_spaces. lia. Qed.

Lemma length_rjust (w : nat) (s : string) :
  String.length (PyStr.rjust w s) = Nat.max w (String.length s).
Proof. unfold PyStr.rjust. rewrite length_append, length_spaces. lia. Qed.

Lemma length_take (n : nat) (s : string) :
  String.length (PyStr.take n s) = Nat.min n (String.length s).
Proof.
  unfold PyStr.take. revert n.
  induction s as [|c s IH]; intros [|n]; cbn; try reflexivity.
  now rewrite IH.
Qed.

(** The width of a data line, whatever its numbers. *)
Lemma length_format_row (r : timing_row) :
  String.length (format_row r) =
  (Nat.max 35 (String.length (row_name r)) + 3
   + Nat.max 12 (String.length (PyStr.of_int (row_count r))) + 1
   + Nat.max 12 (String.length (PyFormat.fixed3 (row_total r))) + 1
   + Nat.max 10 (String.length (PyFormat.fixed3 (row_avg r))) + 1
   + Nat.max 10 (String.length (PyFormat.fixed3 (row_min r))) + 1
   + Nat.max 10 (String.length (PyFormat.fixed3 (row_max r))))%nat.
Proof.
  unfold format_row, PyFormat.fmt_d, PyFormat.fmt_f3.
  repeat rewrite length_append. repeat rewrite length_ljust.
  repeat rewrite length_rjust. cbn [String.length]. lia.
Qed.

Lemma fits_widths (r : timing_row) :
  (String.length (row_name r) <= 35)%nat ->
  fits r = true ->
  map String.length (row_columns r) = column_widths /\
  String.length (format_row r) = 96%nat.
Proof.
  intros Hname Hfits. unfold fits in Hfits.
  repeat (apply andb_prop in Hfits; destruct Hfits as [Hfits ?]).
  repeat match goal with H : (_ <=? _)%nat = true |- _ => apply Nat.leb_le in H end.
  split.
  - unfold row_columns, column_widths, PyFormat.fmt_d, PyFormat.fmt_f3. cbn [map].
    rewrite length_ljust, !length_rjust.
    repeat f_equal; lia.
  - rewrite length_format_row. lia.
Qed.

(** *** The rows *)

Lemma dict_get_In {V} (d : dict V) (k : string) (v : V) :
  dict_get d k = Some v -> In (k, v) d.
Proof.
  induction d as [|[k' v'] d IH]; cbn; [discriminate|].
  destruct (String.eqb k' k) eqn:E.
  - apply String.eqb_eq in E. intros [= ->]. left. now subst.
  - intros H. right. now apply IH.
Qed.

Lemma collect_rows_complete (t : timing_report) (items : list (string * Z)) :
  incl items (t_count t) -> complete t ->
  exists rows,
    collect_rows t items = Ok rows /\
    map row_count rows = map snd items /\
    Forall (row_of t) rows.
Proof.
  intros Hincl Hcomplete.
  induction items as [|[name count] items IH]; cbn [collect_rows].
  - exists []. repeat split. constructor.
  - destruct IH as [rows [Hrows [Hcounts Hall]]].
    { intros x Hx. apply Hincl. now right. }
    assert (Hin : In (name, count) (t_count t)) by (apply Hincl; now left).
    destruct (Hcomplete name count Hin) as [Ht [Ha [Hmn Hmx]]].
    unfold subscript.
    destruct (dict_get (t_total t) name) as [total|] eqn:Et; [|congruence].
    destruct (dict_get (t_avg t) name) as [avg|]; [|congruence].
    destruct (dict_get (t_min t) name) as [mn|]; [|congruence].
    destruct (dict_get (t_max t) name) as [mx|]; [|congruence].
    rewrite Hrows. eexists. split; [reflexivity|]. split.
    + cbn. now rewrite Hcounts.
    + constructor; [|exact Hall].
      exists name. cbn. repeat split; [exact Hin | now apply dict_get_In].
Qed.

(** C5, as amended.  For a timing dictionary that has the total, average,
    minimum and maximum of every metric counted, and no NaN among its
    totals, [format_timing] yields the header, the rule, one line per
    metric, and an empty line.  The lines follow the rows in descending
    order of total.  The header is 96 characters wide, and so is every line
    whose numbers fit their columns, its six fields being 35, 12, 12, 10,
    10 and 10 characters wide; a number too long for its column widens the
    line. *)
Theorem format_timing_sorted_fixed_width (t : timing_report) :
  complete t ->
  Forall (fun entry => not_nan (snd entry)) (t_total t) ->
  exists collected rows,
    collect_rows t (t_count t) = Ok collected /\
    Permutation rows collected /\
    format_timing t
      = Ok (timing_header :: PyStr.replicate 96 "="%char ::
            map format_row rows ++ [""])%list /\
    StronglySorted total_ge rows /\
    String.length timing_header = 96%nat /\
    Forall (fun r =>
              (fits r = true ->
               map String.length (row_columns r) = column_widths /\
               String.length (format_row r) = 96%nat) /\
              (fits r = false -> (96 < String.length (format_row r))%nat))
           rows.
Proof.
  intros Hcomplete Hnan.
  destruct (collect_rows_complete t (t_count t) (incl_refl _) Hcomplete)
    as [collected [Hcollect [_ Hrows]]].
  set (rows := list_sort_reverse row_total SFltb collected).
  assert (Hperm : Permutation rows collected) by apply list_sort_reverse_perm.
  assert (Hrows' : Forall (row_of t) rows).
  { eapply Permutation_Forall; [symmetry; exact Hperm | exact Hrows]. }
  assert (Hordered : Forall (fun r => not_nan (row_total r)) collected).
  { rewrite Forall_forall in *. intros r Hr.
    destruct (Hrows r Hr) as [name [_ [_ Hin]]]. exact (Hnan _ Hin). }
  exists collected, rows. repeat split.
  - exact Hcollect.
  - exact Hperm.
  - unfold format_timing, sorted_rows. now rewrite Hcollect.
  - pose proof (list_sort_reverse_descending row_total SFltb not_nan
                  SFltb_asym SFltb_cotrans collected Hordered) as Hdesc.
    fold rows in Hdesc.
    assert (Hnn : Forall (fun r => not_nan (row_total r)) rows).
    { eapply Permutation_Forall; [symmetry; exact Hperm | exact Hordered]. }
    clear - Hdesc Hnn. induction Hdesc as [|r rest Hs IH Hr]; [constructor|].
    inversion Hnn as [|? ? Hr_nn Hrest_nn]; subst.
    constructor; [now apply IH|].
    rewrite Forall_forall in *. intros r' Hr'.
    apply SFltb_false_SFleb; auto. now apply Hr.
  - rewrite Forall_forall in *. intros r Hr.
    destruct (Hrows' r Hr) as [name [Hname _]].
    assert (Hlen : (String.length (row_name r) <= 35)%nat).
    { rewrite Hname, length_take. lia. }
    split; [now apply fits_widths|].
    intros Hfits. rewrite length_format_row. unfold fits in Hfits.
    repeat (apply andb_false_iff in Hfits; destruct Hfits as [Hfits|Hfits]);
      apply Nat.leb_gt in Hfits; lia.
Qed.

Module TimingExamples.

Import Sample.

(** C5 fails as stated: a count of thirteen digits overflows its twelve
    columns, and the line is one character wider than the header.  And a
    metric that has a count and a total but no average yields no line at
    all. *)
Lemma format_timing_wide_count :
  format_timing wide_report
    = Ok [timing_header; PyStr.replicate 96 "="%char; wide_line; ""] /\
  String.length timing_header = 96%nat /\
  String.length wide_line = 97%nat /\
  format_timing partial_report = Raise (KeyError "a").
Proof. repeat split. Qed.

Lemma report_complete : complete report.
Proof.
  intros name count Hin. cbn in Hin.
  destruct Hin as [E | [E | [E | []]]]; inversion E; subst;
    repeat split; discriminate.
Qed.

Lemma report_totals : Forall (fun entry => not_nan (snd entry)) (t_total report).
Proof. repeat constructor; discriminate. Qed.

Lemma format_timing_sorted_fixed_width_witness :
  exists collected rows,
    collect_rows report (t_count report) = Ok collected /\
    Permutation rows collected /\
    format_timing report
      = Ok (timing_header :: PyStr.replicate 96 "="%char ::
            map format_row rows ++ [""])%list /\
    StronglySorted total_ge rows /\
    String.length timing_header = 96%nat /\
    Forall (fun r =>
              (fits r = true ->
               map String.length (row_columns r) = column_widths /\
               String.length (format_row r) = 96%nat) /\
              (fits r = false -> (96 < String.length (format_row r))%nat))
           rows.
Proof.
  exact (format_timing_sorted_fixed_width report report_complete report_totals).
Defined.

(** The report of the three metrics, as printed. *)
Example format_timing_report :
  format_timing report = Ok
    [ "                                    |        count        total        avg        min        max";
      "================================================================================================";
      "a_very_long_metric_name_that_exceed |            2       12.500      6.250      0.062      7.000";
      "send                                |           10        3.000      0.300      0.062      7.000";
      "unpack                              |            4        0.250      0.062      0.062      7.000";
      "" ].
Proof. reflexivity. Qed.

End TimingExamples.

(** * Further properties of the class *)

(** ** The admin API beyond the claims *)

Section AdminFurther.

Context {decoder : JsonDecoder}.

Lemma admin_request_state (method path : string) (data : option json) (text : bool)
  (s : State) :
  snd (admin_request method path data text s)
    = after_events 1 [EvRequest (admin_call (self s) method path data)] s.
Proof.
  destruct (next_answer s (admin_call (self s) method path data))
    as [e | status body] eqn:E.
  - unfold next_answer, admin_call in E.
    unfold admin_request. unfold_monad. cbn. rewrite E. cbn.
    unfold after_events, count_request, record. cbn. now rewrite Nat.add_1_r.
  - now rewrite (admin_request_run method path data text s status body E).
Qed.

(** X1. Whatever the admin API answers, [admin_request] sends exactly one
    request, with the method, the admin URL followed by the path, and the
    data it was given, and changes nothing of the agent.  An exception of
    the client session comes out as it is, not wrapped. *)
Theorem admin_request_one_request (method path : string) (data : option json)
  (text : bool) (s : State) :
  snd (admin_request method path data text s)
    = after_events 1 [EvRequest (admin_call (self s) method path data)] s /\
  (forall e, next_answer s (admin_call (self s) method path data) = Fails e ->
     fst (admin_request method path data text s) = Raise e).
Proof.
  split; [apply admin_request_state|].
  intros e E. unfold next_answer, admin_call in E.
  unfold admin_request. unfold_monad. cbn. now rewrite E.
Qed.

(** X2. Every status from 200 to 299 is handled like 200: with the same
    body and the same [text] flag the call returns, or raises, the same. *)
Theorem admin_request_any_2xx (method path : string) (data : option json)
  (text : bool) (s s' : State) (status status' : Z) (body : string) :
  200 <= status <= 299 -> 200 <= status' <= 299 ->
  next_answer s (admin_call (self s) method path data) = Responds status body ->
  next_answer s' (admin_call (self s') method path data) = Responds status' body ->
  fst (admin_request method path data text s)
    = fst (admin_request method path data text s').
Proof.
  intros H1 H2 E1 E2.
  rewrite (admin_request_run _ _ _ text _ _ _ E1),
    (admin_request_run _ _ _ text _ _ _ E2). cbn [fst].
  assert (F1 : (status <? 200) || (status >? 299) = false).
  { rewrite Z.gtb_ltb. apply orb_false_iff. split; apply Z.ltb_ge; lia. }
  assert (F2 : (status' <? 200) || (status' >? 299) = false).
  { rewrite Z.gtb_ltb. apply orb_false_iff. split; apply Z.ltb_ge; lia. }
  now rewrite F1, F2.
Qed.

Lemma fetch_timing_run (s : State) :
  fetch_timing s =
  match admin_request "GET" "/status" None false s with
  | (Ok (JDict members), s') =>
      (Ok (match dict_get members "timing" with Some v => v | None => JNull end), s')
  | (Ok _, s') => (Raise (OtherError "AttributeError" "object has no attribute 'get'"), s')
  | (Raise e, s') => (Raise e, s')
  end.
Proof.
  unfold fetch_timing, admin_GET, bind.
  destruct (admin_request "GET" "/status" None false s) as [[v|e] s'];
    [destruct v|]; reflexivity.
Qed.

(** X3. [fetch_timing] on a 2xx answer: an empty body ends in an
    [AttributeError], the value [None] having no [get]; a JSON object gives
    its [timing] member, or [None] when it has none; a body that is not
    JSON gives the decoding error of [admin_request]. *)
Theorem fetch_timing_cases (s : State) (status : Z) (body : string) :
  next_answer s (admin_call (self s) "GET" "/status" None) = Responds status body ->
  200 <= status <= 299 ->
  (body = "" ->
     exists msg, fst (fetch_timing s) = Raise (OtherError "AttributeError" msg)) /\
  (forall members, json_loads body = Some (JDict members) ->
     fst (fetch_timing s)
       = Ok (match dict_get members "timing" with Some v => v | None => JNull end)) /\
  (body <> "" -> json_loads body = None ->
     fst (fetch_timing s) = Raise (Exception ("Error decoding JSON: " ++ body))).
Proof.
  intros E Hst.
  assert (F : (status <? 200) || (status >? 299) = false).
  { rewrite Z.gtb_ltb. apply orb_false_iff. split; apply Z.ltb_ge; lia. }
  rewrite fetch_timing_run, (admin_request_run _ _ _ false _ _ _ E), F.
  repeat split.
  - intros ->. eexists. reflexivity.
  - intros members Hm.
    destruct body; [rewrite json_loads_empty in Hm; discriminate|].
    cbn. now rewrite Hm.
  - intros Hne Hnone. destruct body; [congruence|]. cbn. now rewrite Hnone.
Qed.

(** X4. [reset_timing] posts to [/status/reset] without data and never
    looks into the body: every 2xx answer makes it return, any other
    status makes it raise with that status in the message. *)
Theorem reset_timing_ignores_body (s : State) (status : Z) (body : string) :
  next_answer s (admin_call (self s) "POST" "/status/reset" None)
    = Responds status body ->
  (200 <= status <= 299 -> fst (reset_timing s) = Ok tt) /\
  (status < 200 \/ 299 < status ->
     fst (reset_timing s)
       = Raise (Exception ("Unexpected HTTP response: " ++ PyStr.of_int status))) /\
  snd (reset_timing s)
    = after_events 1 [EvRequest (admin_call (self s) "POST" "/status/reset" None)] s.
Proof.
  intros E.
  assert (R : reset_timing s =
              match admin_request "POST" "/status/reset" None true s with
              | (Ok _, s') => (Ok tt, s')
              | (Raise e, s') => (Raise e, s')
              end).
  { unfold reset_timing, admin_POST, bind, ret.
    now destruct (admin_request "POST" "/status/reset" None true s) as [[v|e] s']. }
  rewrite R, (admin_request_run _ _ _ true _ _ _ E).
  repeat split.
  - intros Hst.
    assert (F : (status <? 200) || (status >? 299) = false).
    { rewrite Z.gtb_ltb. apply orb_false_iff. split; apply Z.ltb_ge; lia. }
    rewrite F. cbn. now rewrite andb_false_r.
  - intros Hst.
    assert (F : (status <? 200) || (status >? 299) = true).
    { rewrite Z.gtb_ltb. apply orb_true_iff.
      destruct Hst; [left | right]; apply Z.ltb_lt; lia. }
    now rewrite F.
  - destruct ((status <? 200) || (status >? 299)); [reflexivity|].
    cbn. now rewrite andb_false_r.
Qed.

End AdminFurther.

(** ** The readiness probe beyond the claims *)

Lemma detect_loop_reraises (n : nat) :
  forall s j text e,
  (j < n)%nat ->
  (forall i, (i < j)%nat -> keeps_polling (poll s i) = true) ->
  poll s j = Fails e ->
  is_ClientError e = false ->
  detect_loop n text s = (Raise e, after_polls (S j) s).
Proof.
  induction n as [|n IH]; intros s j text e Hj Hbefore Hfail He; [lia|].
  rewrite detect_loop_round.
  destruct j as [|j].
  - now rewrite Hfail, He.
  - pose proof (Hbefore 0%nat ltac:(lia)) as H0.
    assert (Hrest : forall i, (i < j)%nat ->
                      keeps_polling (poll (after_polls 1 s) i) = true).
    { intros i Hi. rewrite poll_after_polls. apply Hbefore. lia. }
    assert (Hj' : poll (after_polls 1 s) j = Fails e)
      by now rewrite poll_after_polls.
    destruct (poll s 0) as [e0 | status body0]; cbn in H0.
    + rewrite H0.
      rewrite (IH (after_polls 1 s) j None e ltac:(lia) Hrest Hj' He).
      now rewrite after_polls_S.
    + apply negb_true_iff in H0. rewrite H0.
      rewrite (IH (after_polls 1 s) j text e ltac:(lia) Hrest Hj' He).
      now rewrite after_polls_S.
Qed.

(** X5. Only client errors are retried.  When, after polls that go round
    again, poll [j] raises an exception that is not a [ClientError], the
    probe makes no further poll and that exception comes out of
    [detect_process]. *)
Theorem detect_process_reraises (s : State) (j : nat) (e : exn) :
  (j < 10)%nat ->
  (forall i, (i < j)%nat -> keeps_polling (poll s i) = true) ->
  poll s j = Fails e ->
  is_ClientError e = false ->
  detect_process s = (Raise e, after_polls (S j) s).
Proof.
  intros Hj Hbefore Hfail He.
  now rewrite detect_process_run, (detect_loop_reraises 10 s j None e Hj Hbefore Hfail He).
Qed.

(** The probe only polls: its final state is the initial one after at most
    ten rounds. *)
Lemma detect_process_state (s : State) :
  exists k, (k <= 10)%nat /\ snd (detect_process s) = after_polls k s.
Proof.
  rewrite detect_process_run.
  destruct (detect_loop_rounds 10 None s) as [k [Hk E]].
  exists k. split; [exact Hk|].
  destruct (detect_loop 10 None s) as [[[t|]|e] s']; cbn in E |- *; try exact E.
  destruct (negb (PyStr.truthy t)); [exact E|].
  destruct (negb (PyStr.contains "Aries Cloud Agent" t)); exact E.
Qed.

(** ** The life of the child process *)

Lemma dict_get_set_same {V} (d : dict V) (k : string) (v : V) :
  dict_get (dict_set d k v) k = Some v.
Proof.
  induction d as [|[k' v'] d IH]; cbn.
  - now rewrite String.eqb_refl.
  - destruct (String.eqb k' k) eqn:E; cbn.
    + now rewrite String.eqb_refl.
    + now rewrite E.
Qed.

Lemma dict_get_set_other {V} (d : dict V) (k k2 : string) (v : V) :
  k2 <> k -> dict_get (dict_set d k v) k2 = dict_get d k2.
Proof.
  intros Hne. induction d as [|[k' v'] d IH]; cbn.
  - destruct (String.eqb k k2) eqn:E; [|reflexivity].
    apply String.eqb_eq in E. congruence.
  - destruct (String.eqb k' k) eqn:E; cbn.
    + apply String.eqb_eq in E. subst k'.
      destruct (String.eqb k k2) eqn:E2; [|reflexivity].
      apply String.eqb_eq in E2. congruence.
    + destruct (String.eqb k' k2); [reflexivity | exact IH].
Qed.

Section StartProcess.

Variable json_dumps : json -> string.
Variable environ : dict string.

Lemma start_process_run (python_path bin_path : option string) (wait : bool)
  (s : State) :
  let args := get_process_args json_dumps environ (self s) bin_path in
  let env := child_env environ python_path in
  start_process json_dumps environ python_path bin_path wait s =
  match popen (world s) args env with
  | Raise e =>
      (Raise e, {| self := self s; world := record (EvSpawn args env) (world s) |})
  | Ok p =>
      if wait then detect_process (spawned p args env s)
      else (Ok tt, spawned p args env s)
  end.
Proof.
  cbv zeta. unfold start_process, child_env, _process, spawned. unfold_monad. cbn.
  destruct (popen (world s) _ _) as [p|e]; [|reflexivity].
  destruct wait; reflexivity.
Qed.

(** X6. The child gets the environment of the parent with [PYTHONPATH] set
    to the path given, or to the default of the run mode; every other
    variable is passed on as it is, and an empty path leaves the
    environment untouched.  The spawn, with the command line of
    [get_process_args] and this environment, is the first thing
    [start_process] does. *)
Theorem start_process_environment (python_path bin_path : option string)
  (wait : bool) (s : State) :
  let path := match python_path with
              | None => DEFAULT_PYTHON_PATH environ
              | Some p => p
              end in
  exists env rest,
    trace (world (snd (start_process json_dumps environ python_path bin_path wait s)))
      = (trace (world s)
           ++ EvSpawn (get_process_args json_dumps environ (self s) bin_path) env
           :: rest)%list /\
    (forall k, k <> "PYTHONPATH" -> dict_get env k = dict_get environ k) /\
    (path <> "" -> dict_get env "PYTHONPATH" = Some path) /\
    (path = "" -> env = environ).
Proof.
  cbv zeta.
  set (path := match python_path with
               | None => DEFAULT_PYTHON_PATH environ
               | Some p => p
               end).
  exists (child_env environ python_path).
  assert (Henv : child_env environ python_path
                 = if PyStr.truthy path then dict_set environ "PYTHONPATH" path
                   else environ) by reflexivity.
  pose proof (start_process_run python_path bin_path wait s) as R. cbv zeta in R.
  set (args := get_process_args json_dumps environ (self s) bin_path) in *.
  set (env := child_env environ python_path) in *.
  assert (Htrace : exists rest,
            trace (world (snd (start_process json_dumps environ python_path
                                 bin_path wait s)))
              = (trace (world s) ++ EvSpawn args env :: rest)%list).
  { rewrite R. destruct (popen (world s) args env) as [p|e].
    - destruct wait.
      + destruct (detect_process_state (spawned p args env s)) as [k [_ E]].
        rewrite E. eexists. cbn. rewrite <- app_assoc. reflexivity.
      + exists []. reflexivity.
    - exists []. reflexivity. }
  destruct Htrace as [rest Htrace]. exists rest.
  split; [exact Htrace|]. rewrite Henv. repeat split.
  - intros k Hk. destruct (PyStr.truthy path); [|reflexivity].
    now apply dict_get_set_other.
  - intros Hne. destruct path; [congruence|]. cbn. apply dict_get_set_same.
  - intros ->. reflexivity.
Qed.

(** X7. When the child cannot be started, [start_process] raises what
    [Popen] raised: [proc] is not assigned, no request is sent and the
    readiness probe does not run. *)
Theorem start_process_spawn_failure (python_path bin_path : option string)
  (wait : bool) (s : State) (e : exn) :
  popen (world s) (get_process_args json_dumps environ (self s) bin_path)
    (child_env environ python_path) = Raise e ->
  let s' := snd (start_process json_dumps environ python_path bin_path wait s) in
  fst (start_process json_dumps environ python_path bin_path wait s) = Raise e /\
  self s' = self s /\
  requests_made (world s') = requests_made (world s) /\
  trace (world s')
    = (trace (world s)
         ++ [EvSpawn (get_process_args json_dumps environ (self s) bin_path)
               (child_env environ python_path)])%list.
Proof.
  intros H. cbv zeta.
  pose proof (start_process_run python_path bin_path wait s) as R. cbv zeta in R.
  rewrite R, H. repeat split.
Qed.

(** X8. Once the child is started it is assigned to [proc].  With
    [wait=False] the call returns at once, without a request.  With
    [wait=True] the outcome is that of the readiness probe, and when the
    probe fails the child stays assigned and is not signalled: the events
    after the spawn are polls only. *)
Theorem start_process_leaves_child_running (python_path bin_path : option string)
  (s : State) (p : Popen) :
  let args := get_process_args json_dumps environ (self s) bin_path in
  let env := child_env environ python_path in
  popen (world s) args env = Ok p ->
  start_process json_dumps environ python_path bin_path false s
    = (Ok tt, spawned p args env s) /\
  start_process json_dumps environ python_path bin_path true s
    = detect_process (spawned p args env s) /\
  exists k, (k <= 10)%nat /\
    snd (start_process json_dumps environ python_path bin_path true s)
      = after_polls k (spawned p args env s) /\
    proc (self (snd (start_process json_dumps environ python_path bin_path true s)))
      = Some p.
Proof.
  cbv zeta. intros H.
  pose proof (start_process_run python_path bin_path false s) as Rf.
  pose proof (start_process_run python_path bin_path true s) as Rt.
  cbv zeta in Rf, Rt. rewrite H in Rf, Rt.
  split; [exact Rf|]. split; [exact Rt|].
  rewrite Rt.
  destruct (detect_process_state
              (spawned p (get_process_args json_dumps environ (self s) bin_path)
                 (child_env environ python_path) s)) as [k [Hk E]].
  exists k. split; [exact Hk|]. split; [exact E|]. now rewrite E.
Qed.

End StartProcess.

(** X9. [_terminate] does nothing when there is no child or when the child
    is already gone, and it is idempotent: after a call that returned, a
    second call changes nothing and sends no signal. *)
Theorem _terminate_idempotent (s : State) :
  ((proc (self s) = None \/
    exists p code, proc (self s) = Some p /\ returncode p = Some code) ->
   _terminate s = (Ok tt, s)) /\
  (fst (_terminate s) = Ok tt ->
   _terminate (snd (_terminate s)) = (Ok tt, snd (_terminate s))).
Proof.
  assert (Hnone : forall s0, proc (self s0) = None -> _terminate s0 = (Ok tt, s0)).
  { intros s0 H. unfold _terminate. unfold bind at 1. unfold get_self.
    cbv beta iota. now rewrite H. }
  assert (Hgone : forall s0 p code, proc (self s0) = Some p ->
                    returncode p = Some code -> _terminate s0 = (Ok tt, s0)).
  { intros s0 p code H1 H2. unfold _terminate. unfold bind at 1. unfold get_self.
    cbv beta iota. now rewrite H1, H2. }
  split.
  - intros [H | [p [code [H1 H2]]]]; [now apply Hnone | now apply (Hgone s p code)].
  - intros Hok.
    destruct (proc (self s)) as [p|] eqn:Hp;
      [|rewrite (Hnone s Hp); cbn [snd]; exact (Hnone s Hp)].
    destruct (returncode p) as [code|] eqn:Hr.
    + rewrite (Hgone s p code Hp Hr). cbn [snd]. exact (Hgone s p code Hp Hr).
    + rewrite (_terminate_run s p Hp Hr) in *.
      destruct (exits_within p (1 # 2)) as [code|]; [|discriminate].
      cbn [snd]. now apply (Hgone _ (exited p code) code).
Qed.

Lemma terminate_run (s : State) :
  terminate s =
  match proc (self s) with
  | Some _ =>
      match _terminate s with
      | (Ok _, s1) =>
          match webhook_site (self s1) with
          | Some site =>
              (Ok tt, after_events 0 [EvSessionClose; EvSiteStop (site_port site)] s1)
          | None => (Ok tt, after_events 0 [EvSessionClose] s1)
          end
      | (Raise e, s1) => (Raise e, s1)
      end
  | None =>
      match webhook_site (self s) with
      | Some site =>
          (Ok tt, after_events 0 [EvSessionClose; EvSiteStop (site_port site)] s)
      | None => (Ok tt, after_events 0 [EvSessionClose] s)
      end
  end.
Proof.
  unfold terminate. unfold bind at 1. unfold get_self. cbv beta iota.
  destruct (proc (self s)) as [p|].
  - unfold bind at 1. destruct (_terminate s) as [[[]|e] s1]; [|reflexivity].
    unfold_monad. cbn.
    destruct (webhook_site (self s1)); cbn;
      unfold after_events, record; cbn;
      rewrite Nat.add_0_r, <- ?app_assoc; reflexivity.
  - unfold_monad. cbn.
    destruct (webhook_site (self s)); cbn;
      unfold after_events, record; cbn;
      rewrite Nat.add_0_r, <- ?app_assoc; reflexivity.
Qed.

(** X10. [terminate] closes the client session, and stops the webhook site
    if there is one, only after [_terminate] has returned.  When the child
    does not go away in time the exception leaves [terminate] at once: the
    session is not closed and the site is not stopped. *)
Theorem terminate_order (s : State) :
  (forall e, fst (_terminate s) = Raise e -> terminate s = _terminate s) /\
  (fst (_terminate s) = Ok tt ->
   fst (terminate s) = Ok tt /\
   self (snd (terminate s)) = self (snd (_terminate s)) /\
   trace (world (snd (terminate s)))
     = (trace (world (snd (_terminate s)))
          ++ EvSessionClose ::
             match webhook_site (self s) with
             | Some site => [EvSiteStop (site_port site)]
             | None => []
             end)%list).
Proof.
  pose proof (terminate_run s) as T.
  assert (Hnone : proc (self s) = None -> _terminate s = (Ok tt, s)).
  { intros H. unfold _terminate. unfold bind at 1. unfold get_self.
    cbv beta iota. now rewrite H. }
  assert (Hsite : webhook_site (self (snd (_terminate s))) = webhook_site (self s)).
  { destruct (proc (self s)) as [p|] eqn:Hp; [|now rewrite (Hnone eq_refl)].
    destruct (returncode p) as [code|] eqn:Hr.
    - unfold _terminate. unfold bind at 1. unfold get_self. cbv beta iota.
      now rewrite Hp, Hr.
    - rewrite (_terminate_run s p Hp Hr).
      now destruct (exits_within p (1 # 2)). }
  split.
  - intros e He. rewrite T.
    destruct (proc (self s)) as [p|] eqn:Hp.
    + destruct (_terminate s) as [[[]|e'] s1]; [discriminate | reflexivity].
    + rewrite (Hnone eq_refl) in He. discriminate.
  - intros Hok. rewrite T.
    destruct (proc (self s)) as [p|] eqn:Hp.
    + destruct (_terminate s) as [[[]|e'] s1]; [|discriminate].
      cbn [snd] in *. rewrite Hsite.
      destruct (webhook_site (self s)); repeat split.
    + rewrite (Hnone eq_refl). cbn [snd].
      destruct (webhook_site (self s)); repeat split.
Qed.

(** X11. A second [listen_webhooks] replaces the site of the first in
    [webhook_site], and [terminate] stops the site it finds there: of two
    sites started on an agent without a child, only the second is stopped. *)
Theorem terminate_stops_last_site (s : State) (p1 p2 : Z) :
  proc (self s) = None ->
  let s1 := snd (listen_webhooks p1 s) in
  let s2 := snd (listen_webhooks p2 s1) in
  fst (terminate s2) = Ok tt /\
  trace (world (snd (terminate s2)))
    = (trace (world s)
         ++ [EvSiteStart "0.0.0.0" p1; EvSiteStart "0.0.0.0" p2;
             EvSessionClose; EvSiteStop p2])%list.
Proof.
  intros Hproc. cbv zeta.
  assert (L : forall port s0,
            snd (listen_webhooks port s0)
              = {| self := set_webhook_site
                             (Some {| site_host := "0.0.0.0"; site_port := port |})
                             (set_webhook_url
                                (Some ("http://" ++ external_host (self s0) ++ ":"
                                       ++ PyStr.of_int port ++ "/webhooks"))
                                (set_webhook_port (Some port) (self s0)));
                   world := record (EvSiteStart "0.0.0.0" port) (world s0) |}).
  { intros port s0. unfold listen_webhooks. unfold_monad. cbn.
    destruct (site_start (world s0) port); reflexivity. }
  rewrite !L.
  unfold terminate. unfold_monad. cbn. rewrite Hproc. cbn.
  rewrite <- !app_assoc. split; reflexivity.
Qed.

(** ** The constructor *)

Lemma length_substring (s : string) :
  forall n m, String.length (substring n m s) = Nat.min m (String.length s - n).
Proof.
  induction s as [|c s IH]; intros [|n] [|m]; cbn; try reflexivity.
  - now rewrite IH, Nat.sub_0_r.
  - apply IH.
  - apply IH.
Qed.

Lemma substring_all (s : string) : substring 0 (String.length s) s = s.
Proof. induction s as [|c s IH]; cbn; [reflexivity | now rewrite IH]. Qed.

(** A slice that starts in [a] and runs to the end of [a ++ b]. *)
Lemma substring_to_end (a b : string) :
  forall n, (n <= String.length a)%nat ->
  substring n (String.length a - n + String.length b) (a ++ b)
    = substring n (String.length a - n) a ++ b.
Proof.
  induction a as [|c a IH]; intros n Hn; cbn in *.
  - assert (n = 0)%nat as -> by lia. cbn. apply substring_all.
  - destruct n as [|n]; cbn.
    + f_equal. specialize (IH 0%nat ltac:(lia)).
      now rewrite !Nat.sub_0_r in IH.
    + apply IH. lia.
Qed.

Lemma of_int_inj (n m : Z) : PyStr.of_int n = PyStr.of_int m -> n = m.
Proof.
  unfold PyStr.of_int. intros H.
  assert (Hnn : forall z, Z.to_int z <> Decimal.Pos Decimal.Nil /\
                          Z.to_int z <> Decimal.Neg Decimal.Nil).
  { intros [|p|p]; cbn; split; try discriminate;
      intros [= E]; now apply (Unsigned.to_uint_nonnil p). }
  apply (f_equal NilZero.int_of_string) in H.
  rewrite !NilZero.isi in H by apply Hnn.
  injection H as H. now apply DecimalZ.to_int_inj.
Qed.

Lemma append_assoc (a b c : string) : (a ++ b) ++ c = a ++ b ++ c.
Proof. induction a as [|x a IH]; cbn; [reflexivity | now rewrite IH]. Qed.

Lemma append_inv_head (a b c : string) : a ++ b = a ++ c -> b = c.
Proof. induction a as [|x a IH]; cbn; [auto | intros [= H]; auto]. Qed.

Section Constructor.

Variable environ : dict string.
Variables (name : string) (port admin : Z).
Variables (internal external genesis label_ color_ prefix_ : option string).
Variables (timing_ : bool) (postgres_ : option bool).
Variable extra : option (list (list string)).
Variable kwargs : dict string.

(** The agent constructed with the draw [rand], all else being fixed. *)
Local Abbreviation agent rand :=
  (__init__ environ name port admin internal external genesis label_ color_
     prefix_ timing_ postgres_ extra kwargs rand).

(** X12. A seed given as a parameter is used as it is.  Without one, or
    with an empty one, the seed is made of the fixed filler and the draw
    and is exactly 32 characters long whatever the draw; it ends with the
    digits of the draw when they are at most 32. *)
Theorem seed_given_or_32_characters (rand : Z) :
  (forall sd, dict_get kwargs "seed" = Some sd -> sd <> "" -> seed (agent rand) = sd) /\
  (dict_get kwargs "seed" = None \/ dict_get kwargs "seed" = Some "" ->
   String.length (seed (agent rand)) = 32%nat /\
   ((String.length (PyStr.of_int rand) <= 32)%nat ->
    exists filler, seed (agent rand) = filler ++ PyStr.of_int rand)).
Proof.
  split.
  - intros sd H Hne. cbn. rewrite H. destruct sd; [congruence | reflexivity].
  - intros H.
    assert (E : seed (agent rand)
                = PyStr.last 32 ("my_seed_000000000000000000000000"
                                 ++ PyStr.of_int rand)).
    { cbn [seed __init__]. destruct H as [-> | ->]; reflexivity. }
    rewrite E. unfold PyStr.last.
    set (d := PyStr.of_int rand).
    assert (L : String.length ("my_seed_000000000000000000000000" ++ d)
                = (32 + String.length d)%nat) by now rewrite length_append.
    split.
    + rewrite length_substring, L. lia.
    + intros Hd. rewrite L.
      exists (substring (String.length d) (32 - String.length d)
                "my_seed_000000000000000000000000").
      replace (32 + String.length d - 32)%nat with (String.length d) by lia.
      pose proof (substring_to_end "my_seed_000000000000000000000000" d
                    (String.length d) Hd) as S.
      change (String.length "my_seed_000000000000000000000000") with 32%nat in S.
      replace (32 - String.length d + String.length d)%nat with 32%nat in S by lia.
      exact S.
Qed.

(** X13. The draw is what tells apart the wallets of agents constructed
    alike: without a wallet name, resp. a wallet key, among the
    parameters, two different draws give two different names, resp.
    keys. *)
Theorem wallets_differ_with_the_draw (rand rand' : Z) :
  rand <> rand' ->
  (dict_get kwargs "wallet_name" = None ->
   wallet_name (agent rand) <> wallet_name (agent rand')) /\
  (dict_get kwargs "wallet_key" = None ->
   wallet_key (agent rand) <> wallet_key (agent rand')).
Proof.
  intros Hne. split; intros H; cbn; rewrite H; cbn; intros E;
    apply append_inv_head, of_int_inj in E; contradiction.
Qed.

End Constructor.

(** ** [prefix_str] and the command line *)

(** X14. [prefix_str] is [None] when the prefix is missing or empty.
    Otherwise it is the prefix, padded with spaces to ten columns and never
    cut, followed by a space and a bar: twelve characters for a prefix of
    up to ten. *)
Theorem prefix_str_layout (a : DemoAgent) :
  (prefix a = None \/ prefix a = Some "" -> prefix_str a = None) /\
  (forall p, prefix a = Some p -> p <> "" ->
   exists k,
     prefix_str a = Some (p ++ PyStr.spaces k ++ " |") /\
     (String.length p + k = Nat.max 10 (String.length p))%nat).
Proof.
  split.
  - unfold prefix_str. intros [-> | ->]; reflexivity.
  - intros p Hp Hne. unfold prefix_str. rewrite Hp.
    destruct p as [|c p]; [congruence|]. cbn [PyStr.truthy].
    exists (10 - String.length (String c p))%nat.
    split; [|lia].
    unfold PyStr.ljust. now rewrite append_assoc.
Qed.

Ltac split_ors :=
  repeat match goal with
         | H : _ \/ _ |- _ => destruct H
         | H : False |- _ => destruct H
         end.

(** X15. The command line carries [--webhook-url] exactly when
    [webhook_url] is set to a non-empty URL, extra arguments apart; so an
    agent that has called [listen_webhooks], even if the site could not be
    started, passes the URL of that call to the child it starts next. *)
Theorem webhook_url_argument (json_dumps : json -> string) (a : DemoAgent) :
  (forall u,
     In ["--webhook-url"; u] (get_agent_args json_dumps a) <->
     (webhook_url a = Some u /\ u <> "") \/
     (exists extra, extra_args a = Some extra /\ In ["--webhook-url"; u] extra)) /\
  (forall port w,
     In ["--webhook-url";
         "http://" ++ external_host a ++ ":" ++ PyStr.of_int port ++ "/webhooks"]
        (get_agent_args json_dumps
           (self (snd (listen_webhooks port {| self := a; world := w |}))))).
Proof.
  assert (Hiff : forall b u,
            In ["--webhook-url"; u] (get_agent_args json_dumps b) <->
            (webhook_url b = Some u /\ u <> "") \/
            (exists extra, extra_args b = Some extra /\ In ["--webhook-url"; u] extra)).
  { intros b u. unfold get_agent_args. rewrite !in_app_iff. cbn [In].
    split.
    - intros H. split_ors; try discriminate.
      + destruct (genesis_data b) as [g|]; [destruct (PyStr.truthy g)|];
          cbn in H; split_ors; discriminate.
      + destruct (storage_type b) as [t|]; [destruct (PyStr.truthy t)|];
          cbn in H; split_ors; discriminate.
      + destruct (timing b); cbn in H; split_ors; discriminate.
      + destruct (postgres b); cbn in H; split_ors; discriminate.
      + destruct (webhook_url b) as [w|] eqn:Ew; [|destruct H].
        destruct (PyStr.truthy w) eqn:Et; cbn in H; split_ors.
        injection H as <-. left. split; [reflexivity|].
        intros ->. discriminate.
      + destruct (extra_args b) as [ex|]; [|destruct H].
        right. exists ex. split; [reflexivity | exact H].
    - intros [[Hw Hne] | [ex [He Hin]]].
      + do 5 right. left. rewrite Hw. destruct u; [congruence|]. now left.
      + do 6 right. now rewrite He. }
  split; [apply Hiff|].
  intros port w. apply Hiff. left.
  split; [|discriminate].
  unfold listen_webhooks. unfold_monad. cbn.
  destruct (site_start w port); reflexivity.
Qed.

(** Finds where a group of arguments can come from. *)
Ltac in_args H :=
  unfold get_agent_args in H; rewrite !in_app_iff in H; cbn [In] in H;
  split_ors; try discriminate;
  repeat match type of H with
         | In _ (match ?x with _ => _ end) => destruct x eqn:?
         | In _ (if ?b then _ else _) => destruct b eqn:?
         end;
  cbn [In] in H; split_ors; try discriminate; try congruence.

(** X24. The optional arguments follow the attributes, extra arguments
    apart: [--timing] is passed exactly when [timing] is set, the genesis
    transactions and the storage type exactly when they are set and not
    empty, and the postgres storage type exactly when [postgres] is set. *)
Theorem optional_arguments (json_dumps : json -> string) (a : DemoAgent) :
  extra_args a = None ->
  (In ["--timing"] (get_agent_args json_dumps a) <-> timing a = true) /\
  (forall g, In ["--genesis-transactions"; g] (get_agent_args json_dumps a) <->
             genesis_data a = Some g /\ g <> "") /\
  (forall t, In ["--storage-type"; t] (get_agent_args json_dumps a) <->
             storage_type a = Some t /\ t <> "") /\
  (In ["--wallet-storage-type"; "postgres_storage"] (get_agent_args json_dumps a) <->
   postgres a = true).
Proof.
  intros Hextra. split; [|split; [|split]].
  - split.
    + intros H. in_args H.
    + intros Ht. unfold get_agent_args. rewrite !in_app_iff.
      do 3 right. left. rewrite Ht. now left.
  - intros g. split.
    + intros H. in_args H. injection H as <-.
      split; [reflexivity | intros ->; discriminate].
    + intros [Hg Hne]. unfold get_agent_args. rewrite !in_app_iff.
      right. left. rewrite Hg. destruct g; [congruence|]. now left.
  - intros t. split.
    + intros H. in_args H. injection H as <-.
      split; [reflexivity | intros ->; discriminate].
    + intros [Hs Hne]. unfold get_agent_args. rewrite !in_app_iff.
      do 2 right. left. rewrite Hs. destruct t; [congruence|]. now left.
  - split.
    + intros H. in_args H.
    + intros Hp. unfold get_agent_args. rewrite !in_app_iff.
      do 4 right. left. rewrite Hp. now left.
Qed.

(** ** [register_did] *)

Section RegisterDid.

Context {decoder : JsonDecoder}.
Variable py_str : json -> string.

Lemma register_did_run (ledger_url alias : option string) (s : State) :
  register_did py_str ledger_url alias s =
  match next_answer s (register_request (self s) ledger_url alias) with
  | Fails e => (Raise e, registering ledger_url alias s)
  | Responds status body =>
      if negb (status =? 200) then
        (Raise (Exception ("Error registering DID, response code "
                           ++ PyStr.of_int status)),
         registering ledger_url alias s)
      else
        match json_loads body with
        | None => (Raise (JSONDecodeError body), registering ledger_url alias s)
        | Some (JDict members) =>
            match dict_get members "did" with
            | Some d =>
                (Ok tt,
                 {| self := set_did d (self s);
                    world := record (log_line (self s) [JStr ("Got DID: " ++ py_str d)])
                               (world (registering ledger_url alias s)) |})
            | None => (Raise (KeyError "did"), registering ledger_url alias s)
            end
        | Some _ =>
            (Raise (TypeError "the decoded response cannot be indexed by a string"),
             registering ledger_url alias s)
        end
  end.
Proof.
  unfold next_answer, registering, register_request, log_line, after_events.
  unfold register_did, log, handle_output. unfold_monad.
  unfold count_request, record. cbn.
  destruct (http_client _ _ _) as [e | status body]; cbn.
  - now rewrite Nat.add_1_r, <- app_assoc.
  - destruct (negb (status =? 200)); cbn;
      [now rewrite Nat.add_1_r, <- app_assoc|].
    destruct (json_loads body) as [[| | | | | |members]|]; cbn;
      try (now rewrite Nat.add_1_r, <- app_assoc).
    destruct (dict_get members "did"); cbn;
      rewrite Nat.add_1_r, <- !app_assoc; reflexivity.
Qed.

(** X16. [register_did] logs what it registers and sends one POST to the
    ledger, at [/register], with the alias, the seed and the role
    [TRUST_ANCHOR]; the ledger defaults to port 9000 of the external host
    and the alias to [ident], also when they are given as empty strings.
    An answer other than 200 is raised as an exception that carries the
    status. *)
Theorem register_did_request (ledger_url alias : option string) (s : State) :
  (exists rest,
     trace (world (snd (register_did py_str ledger_url alias s)))
       = (trace (world s)
            ++ log_line (self s)
                 [JStr ("Registering " ++ ident (self s) ++ " with seed "
                        ++ seed (self s))]
            :: EvRequest (register_request (self s) ledger_url alias)
            :: rest)%list /\
     requests_made (world (snd (register_did py_str ledger_url alias s)))
       = S (requests_made (world s))) /\
  rq_url (register_request (self s) None alias)
    = "http://" ++ external_host (self s) ++ ":9000/register" /\
  register_request (self s) (Some "") (Some "") = register_request (self s) None None /\
  (forall status body,
     next_answer s (register_request (self s) ledger_url alias)
       = Responds status body ->
     status <> 200 ->
     fst (register_did py_str ledger_url alias s)
       = Raise (Exception ("Error registering DID, response code "
                           ++ PyStr.of_int status))).
Proof.
  rewrite register_did_run. repeat split.
  - destruct (next_answer s _) as [e | status body].
    + exists []. cbn. split; [reflexivity | now rewrite Nat.add_1_r].
    + destruct (negb (status =? 200));
        [exists []; cbn; split; [reflexivity | now rewrite Nat.add_1_r]|].
      destruct (json_loads body) as [[| | | | | |members]|];
        try (exists []; cbn; split; [reflexivity | now rewrite Nat.add_1_r]).
      destruct (dict_get members "did");
        [|exists []; cbn; split; [reflexivity | now rewrite Nat.add_1_r]].
      eexists. cbn. rewrite <- app_assoc. cbn.
      split; [reflexivity | now rewrite Nat.add_1_r].
  - unfold register_request. cbn. now rewrite append_assoc.
  - intros status body E Hne. rewrite E.
    apply Z.eqb_neq in Hne. now rewrite Hne.
Qed.

(** X17. [register_did] assigns [did] and nothing else, and only when it
    returns: a call that raises leaves the agent as it was, and a call that
    returns was answered 200 with a JSON object whose [did] member is now
    the [did] of the agent. *)
Theorem register_did_assigns_did (ledger_url alias : option string) (s : State) :
  (forall e, fst (register_did py_str ledger_url alias s) = Raise e ->
     self (snd (register_did py_str ledger_url alias s)) = self s) /\
  (fst (register_did py_str ledger_url alias s) = Ok tt ->
   exists body members d,
     next_answer s (register_request (self s) ledger_url alias) = Responds 200 body /\
     json_loads body = Some (JDict members) /\
     dict_get members "did" = Some d /\
     self (snd (register_did py_str ledger_url alias s)) = set_did d (self s)).
Proof.
  rewrite register_did_run.
  destruct (next_answer s _) as [e0 | status body]; [split; [reflexivity | discriminate]|].
  destruct (status =? 200) eqn:Est; cbn [negb];
    [|split; [reflexivity | discriminate]].
  apply Z.eqb_eq in Est. subst status.
  destruct (json_loads body) as [[| | | | | |members]|] eqn:Ej;
    try (split; [reflexivity | discriminate]).
  destruct (dict_get members "did") as [d|] eqn:Ed;
    [|split; [reflexivity | discriminate]].
  split; [discriminate|].
  intros _. exists body, members, d. repeat split; assumption.
Qed.

End RegisterDid.

(** ** The timing report beyond the claim *)

Lemma collect_rows_length (t : timing_report) (items : list (string * Z)) :
  forall rows, collect_rows t items = Ok rows -> length rows = length items.
Proof.
  induction items as [|[name count] items IH]; cbn [collect_rows]; intros rows H.
  - now injection H as <-.
  - destruct (subscript (t_total t) name); [|discriminate].
    destruct (subscript (t_avg t) name); [|discriminate].
    destruct (subscript (t_min t) name); [|discriminate].
    destruct (subscript (t_max t) name); [|discriminate].
    destruct (collect_rows t items) as [rows'|]; [|discriminate].
    injection H as <-. cbn. now rewrite (IH rows' eq_refl).
Qed.

Lemma collect_rows_row_of (t : timing_report) (items : list (string * Z)) :
  incl items (t_count t) ->
  forall rows, collect_rows t items = Ok rows -> Forall (row_of t) rows.
Proof.
  intros Hincl.
  induction items as [|[name count] items IH]; cbn [collect_rows]; intros rows H.
  - injection H as <-. constructor.
  - unfold subscript in H.
    destruct (dict_get (t_total t) name) as [total|] eqn:Et; [|discriminate].
    destruct (dict_get (t_avg t) name); [|discriminate].
    destruct (dict_get (t_min t) name); [|discriminate].
    destruct (dict_get (t_max t) name); [|discriminate].
    destruct (collect_rows t items) as [rows'|]; [|discriminate].
    injection H as <-. constructor.
    + exists name. cbn. repeat split.
      * apply Hincl. now left.
      * now apply dict_get_In.
    + apply IH; [|reflexivity]. intros x Hx. apply Hincl. now right.
Qed.

(** X18. When [format_timing] yields lines, there are three more of them
    than there are metrics counted: the header, the rule of 96 equal
    signs, a line for each metric, and an empty line.  A report without
    metrics is these three lines. *)
Theorem format_timing_line_count (t : timing_report) (lines : list string) :
  format_timing t = Ok lines ->
  length lines = (length (t_count t) + 3)%nat /\
  nth 0 lines "" = timing_header /\
  nth 1 lines "" = PyStr.replicate 96 "="%char /\
  last lines "?" = "" /\
  (t_count t = [] -> lines = [timing_header; PyStr.replicate 96 "="%char; ""]).
Proof.
  unfold format_timing, sorted_rows.
  destruct (collect_rows t (t_count t)) as [collected|] eqn:Ec; [|discriminate].
  intros [= <-].
  pose proof (collect_rows_length t _ _ Ec) as Hlen.
  pose proof (Permutation_length (list_sort_reverse_perm row_total SFltb collected))
    as Hperm.
  repeat split.
  - cbn [length]. rewrite length_app, length_map, Hperm, Hlen. cbn. lia.
  - apply (last_last (timing_header :: PyStr.replicate 96 "="%char ::
                         map format_row (list_sort_reverse row_total SFltb collected))).
  - intros Hempty. rewrite Hempty in Ec. cbn in Ec. now injection Ec as <-.
Qed.

(** X19. A metric that lacks its total, average, minimum or maximum stops
    the report before its first line: [format_timing] raises a [KeyError]
    with the name of the first such metric in the order of the count
    dictionary. *)
Theorem format_timing_missing_statistic (t : timing_report)
  (before : list (string * Z)) (name : string) (count : Z)
  (after : list (string * Z)) :
  t_count t = (before ++ (name, count) :: after)%list ->
  (forall item, In item before -> has_statistics t (fst item)) ->
  ~ has_statistics t name ->
  format_timing t = Raise (KeyError name).
Proof.
  intros Hcount Hbefore Hmissing.
  assert (H : collect_rows t (before ++ (name, count) :: after)
              = Raise (KeyError name)).
  { clear Hcount. induction before as [|[n c] before IH]; cbn [app collect_rows].
    - unfold has_statistics in Hmissing. unfold subscript.
      destruct (dict_get (t_total t) name); [|reflexivity].
      destruct (dict_get (t_avg t) name); [|reflexivity].
      destruct (dict_get (t_min t) name); [|reflexivity].
      destruct (dict_get (t_max t) name); [|reflexivity].
      exfalso. apply Hmissing. repeat split; discriminate.
    - destruct (Hbefore (n, c) (or_introl eq_refl)) as [Ht [Ha [Hmn Hmx]]].
      cbn in Ht, Ha, Hmn, Hmx. unfold subscript.
      destruct (dict_get (t_total t) n); [|congruence].
      destruct (dict_get (t_avg t) n); [|congruence].
      destruct (dict_get (t_min t) n); [|congruence].
      destruct (dict_get (t_max t) n); [|congruence].
      fold (@subscript spec_float).
      rewrite IH; [reflexivity|].
      intros item Hin. apply Hbefore. now right. }
  unfold format_timing, sorted_rows. now rewrite Hcount, H.
Qed.

(** *** Equal keys keep their order *)

Section Stability.

Context {A K : Type}.
Variable key : A -> K.
Variable lt : K -> K -> bool.
Variable ordered : K -> Prop.

Hypothesis lt_asym :
  forall a b, ordered a -> ordered b -> lt a b = true -> lt b a = false.

Hypothesis lt_cotrans :
  forall a b c, ordered a -> ordered b -> ordered c ->
  lt a b = false -> lt b c = false -> lt a c = false.

Variable k : K.
Hypothesis k_ordered : ordered k.

Local Abbreviation level := (level key lt k).

Lemma level_below (x y : A) :
  ordered (key x) -> ordered (key y) ->
  level x = true -> lt (key x) (key y) = true -> lt k (key y) = true.
Proof.
  intros Hx Hy Hl Hxy. unfold level in Hl.
  apply andb_prop in Hl. destruct Hl as [Hl _]. apply negb_true_iff in Hl.
  destruct (lt k (key y)) eqn:E; [reflexivity|].
  rewrite (lt_cotrans (key x) k (key y) Hx k_ordered Hy Hl E) in Hxy. discriminate.
Qed.

Lemma insert_sorted_level (x : A) (l : list A) :
  ordered (key x) -> all_ordered key ordered l ->
  StronglySorted (ascending key lt) l ->
  filter level (insert_sorted key lt x l)
    = (filter level l ++ (if level x then [x] else []))%list.
Proof.
  intros Hx. induction l as [|y l IH]; intros Hl Hs; cbn [insert_sorted].
  - cbn. now destruct (level x).
  - inversion Hl as [|? ? Hy Hl']; subst.
    apply StronglySorted_inv in Hs. destruct Hs as [Hs Hy_le].
    destruct (lt (key x) (key y)) eqn:E.
    + cbn [filter]. destruct (level x) eqn:Lx; [|now rewrite app_nil_r].
      assert (Hky : lt k (key y) = true) by now apply (level_below x y).
      assert (Hnone : forall z, In z (y :: l) -> level z = false).
      { intros z [<- | Hz]; unfold level.
        - rewrite Hky. now rewrite andb_false_r.
        - assert (Hz_ord : ordered (key z)).
          { unfold all_ordered in Hl'. rewrite Forall_forall in Hl'. now apply Hl'. }
          rewrite Forall_forall in Hy_le. specialize (Hy_le z Hz).
          unfold ascending in Hy_le.
          destruct (lt k (key z)) eqn:Ez; [now rewrite andb_false_r|].
          rewrite (lt_cotrans k (key z) (key y) k_ordered Hz_ord Hy Ez Hy_le) in Hky.
          discriminate. }
      assert (Hempty : filter level (y :: l) = []).
      { clear - Hnone. induction (y :: l) as [|z rest IHr]; [reflexivity|].
        cbn. rewrite (Hnone z (or_introl eq_refl)).
        apply IHr. intros w Hw. apply Hnone. now right. }
      cbn [filter] in Hempty. now rewrite Hempty.
    + cbn [filter]. rewrite (IH Hl' Hs).
      destruct (level y); [reflexivity|reflexivity].
Qed.

Lemma fold_insert_level (l : list A) :
  forall acc, all_ordered key ordered l -> all_ordered key ordered acc ->
  StronglySorted (ascending key lt) acc ->
  filter level (fold_left (fun acc x => insert_sorted key lt x acc) l acc)
    = (filter level acc ++ filter level l)%list.
Proof.
  induction l as [|x l IH]; intros acc Hl Hacc Hs; cbn [fold_left].
  - cbn. now rewrite app_nil_r.
  - inversion Hl as [|? ? Hx Hl']; subst.
    rewrite IH.
    + rewrite (insert_sorted_level x acc Hx Hacc Hs), <- app_assoc. cbn [filter].
      now destruct (level x).
    + exact Hl'.
    + eapply Permutation_Forall; [symmetry; apply insert_sorted_perm|].
      now constructor.
    + now apply (insert_sorted_ascending key lt ordered lt_asym lt_cotrans).
Qed.

(** Sorting in reverse keeps, among the elements level with [k], the order
    they had. *)
Lemma list_sort_reverse_level (l : list A) :
  all_ordered key ordered l ->
  filter level (list_sort_reverse key lt l) = filter level l.
Proof.
  intros Hl. unfold list_sort_reverse, list_sort.
  rewrite filter_rev, fold_insert_level.
  - cbn. rewrite filter_rev. apply rev_involutive.
  - now apply Forall_rev.
  - constructor.
  - constructor.
Qed.

End Stability.

(** X20. The sort is stable: among the rows whose totals are equal, that
    is neither smaller nor greater than a given value, the report keeps
    the order of the count dictionary, provided no total is NaN. *)
Theorem format_timing_stable (t : timing_report) (collected rows : list timing_row)
  (k : spec_float) :
  Forall (fun entry => not_nan (snd entry)) (t_total t) ->
  not_nan k ->
  collect_rows t (t_count t) = Ok collected ->
  sorted_rows t = Ok rows ->
  filter (same_total k) rows = filter (same_total k) collected.
Proof.
  intros Hnan Hk Hc Hs.
  unfold sorted_rows in Hs. rewrite Hc in Hs. injection Hs as <-.
  apply (list_sort_reverse_level row_total SFltb not_nan SFltb_asym SFltb_cotrans
           k Hk).
  pose proof (collect_rows_row_of t (t_count t) (incl_refl _) collected Hc) as Hrows.
  unfold all_ordered. rewrite Forall_forall in *. intros r Hr.
  destruct (Hrows r Hr) as [name [_ [_ Hin]]]. exact (Hnan _ Hin).
Qed.

Lemma substring_head (a b : string) : substring 0 (String.length a) (a ++ b) = a.
Proof. induction a as [|c a IH]; cbn; [now destruct b | now rewrite IH]. Qed.

Lemma substring_skip (a b : string) (m : nat) :
  substring (String.length a) m (a ++ b) = substring 0 m b.
Proof. induction a as [|c a IH]; cbn; [reflexivity | exact IH]. Qed.

Lemma bar_first (rest : string) : substring 0 3 (" | " ++ rest) = " | ".
Proof. cbn. now destruct rest. Qed.

(** X21. The name never pushes the columns: every data line begins with
    the name of its metric cut to 35 characters and padded to 35, and has
    the bar between its spaces right after, whatever the numbers. *)
Theorem format_timing_name_column (t : timing_report) (rows : list timing_row) :
  sorted_rows t = Ok rows ->
  Forall (fun r =>
            exists name,
              In (name, row_count r) (t_count t) /\
              substring 0 35 (format_row r) = PyStr.ljust 35 (PyStr.take 35 name) /\
              String.length (PyStr.ljust 35 (PyStr.take 35 name)) = 35%nat /\
              substring 35 3 (format_row r) = " | ")
         rows.
Proof.
  unfold sorted_rows.
  destruct (collect_rows t (t_count t)) as [collected|] eqn:Ec; [|discriminate].
  intros [= <-].
  pose proof (collect_rows_row_of t (t_count t) (incl_refl _) collected Ec) as Hrows.
  assert (Hsorted : Forall (row_of t) (list_sort_reverse row_total SFltb collected)).
  { eapply Permutation_Forall; [symmetry; apply list_sort_reverse_perm | exact Hrows]. }
  rewrite Forall_forall in *. intros r Hr.
  destruct (Hsorted r Hr) as [name [Hname [Hin _]]].
  exists name.
  assert (L : String.length (PyStr.ljust 35 (PyStr.take 35 name)) = 35%nat).
  { rewrite length_ljust, length_take. lia. }
  split; [exact Hin|].
  unfold format_row. rewrite Hname.
  split; [|split; [exact L|]].
  - rewrite <- L at 1. apply substring_head.
  - rewrite <- L at 1. rewrite substring_skip. apply bar_first.
Qed.

(** ** Webhooks and the child, once more *)

(** X22. The class has a method [handle_output] of its own, which is not a
    coroutine.  Unless a subclass overrides it, or overrides
    [handle_webhook], a webhook on the topic [output] reaches it: the
    payload is logged as a message of the agent, and the request ends in a
    [TypeError], the result of the call not being awaitable. *)
Theorem webhook_topic_output {decoder : JsonDecoder}
  (handlers : string -> option (json -> M unit)) (body : string) (payload : json)
  (s : State) :
  handlers "handle_webhook" = None ->
  handlers "handle_output" = None ->
  json_loads body = Some payload ->
  _receive_webhook handlers "output" body s
    = (Raise (TypeError "object NoneType can't be used in 'await' expression"),
       after_events 0 [EvHandler "handle_output" payload;
                       log_line (self s) [payload]] s).
Proof.
  intros Hw Hh Hj.
  unfold _receive_webhook, handle_webhook, getattr_handle, await_method,
    handle_output.
  unfold_monad. rewrite Hj, Hw. cbn. rewrite Hh. cbn.
  unfold after_events, record, log_line. cbn.
  now rewrite Nat.add_0_r, <- app_assoc.
Qed.

(** X23. A child started by [start_process] and still running is the one
    [terminate] signals.  When it goes away within the half second,
    [terminate] returns, [proc] holds the return code, and the trace is the
    spawn, the signal, the wait, the log line, the closing of the session
    and the stopping of the webhook site if there is one. *)
Theorem terminate_after_start_process (json_dumps : json -> string)
  (environ : dict string) (python_path bin_path : option string)
  (s : State) (p : Popen) (code : Z) :
  let args := get_process_args json_dumps environ (self s) bin_path in
  let env := child_env environ python_path in
  let s1 := snd (start_process json_dumps environ python_path bin_path false s) in
  popen (world s) args env = Ok p ->
  returncode p = None ->
  exits_within p (1 # 2) = Some code ->
  fst (terminate s1) = Ok tt /\
  proc (self (snd (terminate s1))) = Some (exited p code) /\
  trace (world (snd (terminate s1)))
    = (trace (world s)
         ++ [EvSpawn args env; EvSigterm; EvWait (1 # 2);
             log_line (self s)
               [JStr ("Exited with return code " ++ PyStr.of_int code)];
             EvSessionClose]
         ++ match webhook_site (self s) with
            | Some site => [EvSiteStop (site_port site)]
            | None => []
            end)%list.
Proof.
  cbv zeta. intros Hp Hr Hw.
  pose proof (start_process_run json_dumps environ python_path bin_path false s) as R.
  cbv zeta in R. rewrite Hp in R. rewrite R. cbn [snd].
  set (args := get_process_args json_dumps environ (self s) bin_path).
  set (env := child_env environ python_path).
  clearbody args env.
  rewrite terminate_run.
  change (proc (self (spawned p args env s))) with (Some p).
  rewrite (_terminate_run (spawned p args env s) p eq_refl Hr), Hw.
  change (webhook_site (self (spawned p args env s))) with (webhook_site (self s)).
  cbn.
  destruct (webhook_site (self s)); cbn; rewrite <- ?app_assoc; repeat split.
Qed.

Module FurtherExamples.

Import Sample SampleJson.

Lemma admin_request_one_request_witness :
  fst (admin_request "GET" "/status" None false never_started)
    = Raise (ClientError "Cannot connect to host").
Proof.
  exact (proj2 (admin_request_one_request "GET" "/status" None false never_started)
           (ClientError "Cannot connect to host") eq_refl).
Defined.

Lemma admin_request_any_2xx_witness :
  fst (admin_request "GET" "/status" None false ok_json)
    = fst (admin_request "GET" "/status" None false created_json).
Proof.
  apply (admin_request_any_2xx "GET" "/status" None false ok_json created_json
           200 201 ("{" ++ quoted "timing" ++ ": null}"));
    [lia | lia | reflexivity | reflexivity].
Defined.

Lemma fetch_timing_cases_witness :
  (exists msg, fst (fetch_timing ok_empty) = Raise (OtherError "AttributeError" msg)) /\
  fst (fetch_timing ok_json) = Ok JNull /\
  fst (fetch_timing ok_html) = Raise (Exception "Error decoding JSON: <html>").
Proof.
  split; [|split].
  - apply (fetch_timing_cases ok_empty 200 "" eq_refl); [lia | reflexivity].
  - apply (proj1 (proj2 (fetch_timing_cases ok_json 200 _ eq_refl ltac:(lia)))
             [("timing", JNull)]).
    reflexivity.
  - apply (fetch_timing_cases ok_html 200 "<html>" eq_refl);
      [lia | discriminate | reflexivity].
Defined.

Lemma reset_timing_ignores_body_witness :
  fst (reset_timing ok_html) = Ok tt /\
  fst (reset_timing not_found)
    = Raise (Exception "Unexpected HTTP response: 404").
Proof.
  split.
  - apply (reset_timing_ignores_body ok_html 200 "<html>" eq_refl). lia.
  - apply (reset_timing_ignores_body not_found 404 "Not Found" eq_refl). lia.
Defined.

Lemma detect_process_reraises_witness :
  detect_process client_timeout
    = (Raise (OtherError "TimeoutError" ""), after_polls 1 client_timeout).
Proof.
  apply (detect_process_reraises client_timeout 0 (OtherError "TimeoutError" ""));
    [lia | intros i Hi; lia | reflexivity | reflexivity].
Defined.

Lemma start_process_environment_witness :
  exists env rest,
    trace (world (snd (start_process dumps parent_env (Some ".") None false idle)))
      = EvSpawn (get_process_args dumps parent_env alice None) env :: rest /\
    dict_get env "PATH" = Some "/usr/bin" /\
    dict_get env "PYTHONPATH" = Some ".".
Proof.
  destruct (start_process_environment dumps parent_env (Some ".") None false idle)
    as [env [rest [Ht [Hother [Hset _]]]]].
  exists env, rest. split; [exact Ht|]. split.
  - rewrite Hother; [reflexivity | discriminate].
  - apply Hset. discriminate.
Defined.

Lemma start_process_spawn_failure_witness :
  fst (start_process dumps [] None None true no_python)
    = Raise (OtherError "FileNotFoundError" "python3") /\
  self (snd (start_process dumps [] None None true no_python)) = alice /\
  requests_made (world (snd (start_process dumps [] None None true no_python))) = 0%nat /\
  trace (world (snd (start_process dumps [] None None true no_python)))
    = [EvSpawn alice_args alice_env].
Proof.
  exact (start_process_spawn_failure dumps [] None None true no_python
           (OtherError "FileNotFoundError" "python3") eq_refl).
Defined.

Lemma start_process_leaves_child_running_witness :
  start_process dumps [] None None false never_started
    = (Ok tt, spawned (running alice_args) alice_args alice_env never_started) /\
  start_process dumps [] None None true never_started
    = detect_process (spawned (running alice_args) alice_args alice_env never_started) /\
  exists k, (k <= 10)%nat /\
    snd (start_process dumps [] None None true never_started)
      = after_polls k (spawned (running alice_args) alice_args alice_env never_started) /\
    proc (self (snd (start_process dumps [] None None true never_started)))
      = Some (running alice_args).
Proof.
  exact (start_process_leaves_child_running dumps [] None None never_started
           (running alice_args) eq_refl).
Defined.

Lemma _terminate_idempotent_witness :
  _terminate idle = (Ok tt, idle) /\
  _terminate (snd (_terminate with_child)) = (Ok tt, snd (_terminate with_child)).
Proof.
  split.
  - apply (proj1 (_terminate_idempotent idle)). now left.
  - apply (proj2 (_terminate_idempotent with_child)). reflexivity.
Defined.

Lemma terminate_order_witness :
  terminate with_stuck_child = _terminate with_stuck_child /\
  trace (world (snd (terminate with_child)))
    = (trace (world (snd (_terminate with_child))) ++ [EvSessionClose])%list.
Proof.
  split.
  - apply (proj1 (terminate_order with_stuck_child) (Exception not_in_time)).
    reflexivity.
  - apply (proj2 (terminate_order with_child)). reflexivity.
Defined.

Lemma terminate_stops_last_site_witness :
  trace (world (snd (terminate
     (snd (listen_webhooks 8030 (snd (listen_webhooks 8022 idle)))))))
    = [EvSiteStart "0.0.0.0" 8022; EvSiteStart "0.0.0.0" 8030;
       EvSessionClose; EvSiteStop 8030].
Proof.
  exact (proj2 (terminate_stops_last_site idle 8022 8030 eq_refl)).
Defined.

Lemma seed_given_or_32_characters_witness :
  seed with_seed = "alice_seed_000000000000000000001" /\
  String.length (seed alice) = 32%nat /\
  exists filler, seed alice = filler ++ "123456".
Proof.
  split; [|split].
  - apply (proj1 (seed_given_or_32_characters [] "Alice" 8020 8021 None None None
                    None None None false None None
                    [("seed", "alice_seed_000000000000000000001")] 123456));
      [reflexivity | discriminate].
  - apply (proj2 (seed_given_or_32_characters [] "Alice" 8020 8021 None None None
                    None None None false None None [] 123456)).
    now left.
  - apply (proj2 (seed_given_or_32_characters [] "Alice" 8020 8021 None None None
                    None None None false None None [] 123456));
      [now left | cbn; lia].
Defined.

Lemma wallets_differ_with_the_draw_witness :
  wallet_name alice
    <> wallet_name (__init__ [] "Alice" 8020 8021 None None None None None None
                      false None None [] 654321).
Proof.
  apply (proj1 (wallets_differ_with_the_draw [] "Alice" 8020 8021 None None None
                  None None None false None None [] 123456 654321
                  ltac:(discriminate))).
  reflexivity.
Defined.

Lemma prefix_str_layout_witness :
  prefix_str alice = None /\
  exists k, prefix_str faber = Some ("Faber" ++ PyStr.spaces k ++ " |") /\
            (5 + k = 10)%nat.
Proof.
  split.
  - apply (proj1 (prefix_str_layout alice)). now left.
  - apply (proj2 (prefix_str_layout faber) "Faber"); [reflexivity | discriminate].
Defined.

Lemma webhook_url_argument_witness :
  ~ In ["--webhook-url"; "http://localhost:8022/webhooks"] (get_agent_args dumps alice) /\
  In ["--webhook-url"; "http://localhost:8022/webhooks"]
     (get_agent_args dumps (self (snd (listen_webhooks 8022 idle)))).
Proof.
  split.
  - intros H.
    apply (proj1 (webhook_url_argument dumps alice)) in H.
    destruct H as [[H _] | [ex [H _]]]; discriminate.
  - exact (proj2 (webhook_url_argument dumps alice) 8022 (world idle)).
Defined.

Lemma register_did_request_witness :
  fst (register_did dumps None None ledger_down)
    = Raise (Exception "Error registering DID, response code 503").
Proof.
  apply (proj2 (proj2 (proj2 (register_did_request dumps None None ledger_down)))
           503 "");
    [reflexivity | discriminate].
Defined.

Lemma register_did_assigns_did_witness :
  self (snd (register_did dumps None None ledger_down)) = alice /\
  exists body members d,
    next_answer ledger_ok (register_request alice None None) = Responds 200 body /\
    json_loads body = Some (JDict members) /\
    dict_get members "did" = Some d /\
    self (snd (register_did dumps None None ledger_ok)) = set_did d alice.
Proof.
  split.
  - apply (proj1 (register_did_assigns_did dumps None None ledger_down)
             (Exception "Error registering DID, response code 503")).
    reflexivity.
  - apply (proj2 (register_did_assigns_did (decoder := SampleJson.decoder)
                    dumps None None ledger_ok)).
    reflexivity.
Defined.

Lemma format_timing_line_count_witness :
  length report_lines = 6%nat /\ last report_lines "?" = "".
Proof.
  destruct (format_timing_line_count report report_lines eq_refl)
    as [Hlen [_ [_ [Hlast _]]]].
  split; [exact Hlen | exact Hlast].
Defined.

Lemma format_timing_missing_statistic_witness :
  format_timing partial_report = Raise (KeyError "a").
Proof.
  apply (format_timing_missing_statistic partial_report [] "a" 1 []);
    [reflexivity | intros item [] |].
  intros [_ [H _]]. now apply H.
Defined.

Lemma format_timing_stable_witness :
  map row_name tied_collected = ["first"; "second"; "third"; "fourth"] /\
  map row_name tied_rows = ["second"; "first"; "third"; "fourth"] /\
  map row_name (filter (same_total (double 2 0)) tied_rows) = ["first"; "third"].
Proof.
  split; [reflexivity|]. split; [reflexivity|].
  rewrite (format_timing_stable tied_report tied_collected tied_rows (double 2 0)).
  - reflexivity.
  - repeat constructor; discriminate.
  - discriminate.
  - reflexivity.
  - reflexivity.
Defined.

Lemma format_timing_name_column_witness :
  Forall (fun r =>
            exists name,
              In (name, row_count r) (t_count report) /\
              substring 0 35 (format_row r) = PyStr.ljust 35 (PyStr.take 35 name) /\
              String.length (PyStr.ljust 35 (PyStr.take 35 name)) = 35%nat /\
              substring 35 3 (format_row r) = " | ")
         report_rows.
Proof.
  exact (format_timing_name_column report report_rows eq_refl).
Defined.

Lemma optional_arguments_witness :
  In ["--timing"] (get_agent_args dumps optioned) /\
  In ["--genesis-transactions"; "genesis"] (get_agent_args dumps optioned) /\
  In ["--storage-type"; "postgres_storage"] (get_agent_args dumps optioned) /\
  In ["--wallet-storage-type"; "postgres_storage"] (get_agent_args dumps optioned) /\
  ~ In ["--genesis-transactions"; "genesis"] (get_agent_args dumps alice) /\
  ~ In ["--storage-type"; "postgres_storage"] (get_agent_args dumps alice) /\
  ~ In ["--timing"] (get_agent_args dumps alice) /\
  ~ In ["--wallet-storage-type"; "postgres_storage"] (get_agent_args dumps alice).
Proof.
  destruct (optional_arguments dumps optioned eq_refl) as [Ht [Hg [Hs Hp]]].
  destruct (optional_arguments dumps alice eq_refl) as [Ht' [Hg' [Hs' Hp']]].
  split; [apply Ht; reflexivity|].
  split; [apply Hg; split; [reflexivity | discriminate]|].
  split; [apply Hs; split; [reflexivity | discriminate]|].
  split; [apply Hp; reflexivity|].
  split; [intros H; apply Hg' in H; destruct H; discriminate|].
  split; [intros H; apply Hs' in H; destruct H; discriminate|].
  split; intros H; [apply Ht' in H | apply Hp' in H]; discriminate.
Defined.

Lemma webhook_topic_output_witness :
  _receive_webhook topic_handlers "output" active idle
    = (Raise (TypeError "object NoneType can't be used in 'await' expression"),
       after_events 0 [EvHandler "handle_output" active_payload;
                       log_line alice [active_payload]] idle).
Proof.
  apply (webhook_topic_output (decoder := SampleJson.decoder) topic_handlers active
           active_payload idle);
    reflexivity.
Defined.

Lemma terminate_after_start_process_witness :
  fst (terminate (snd (start_process dumps [] None None false idle))) = Ok tt /\
  proc (self (snd (terminate (snd (start_process dumps [] None None false idle)))))
    = Some (exited (running alice_args) 0) /\
  trace (world (snd (terminate (snd (start_process dumps [] None None false idle)))))
    = [EvSpawn alice_args alice_env; EvSigterm; EvWait (1 # 2);
       log_line alice [JStr "Exited with return code 0"]; EvSessionClose].
Proof.
  exact (terminate_after_start_process dumps [] None None idle (running alice_args) 0
           eq_refl eq_refl eq_refl).
Defined.

End FurtherExamples.
